(** * MP3 to WAV splitter: a shallow embedding of [mp3_to_wav_splitter.py]

    The development follows [convert_mp3_to_wav_clips] line by line.  Python
    integers are [Z]; the decoded audio buffer (a one-dimensional numpy
    array) is a [list] of samples; the one floating-point step of the
    function, [int(np.ceil(total_samples / samples_per_clip))], is modelled
    on the binary64 value it computes; the file system and the calls into
    [librosa] and [soundfile] are threaded through a state and error monad.

    What [print] and [tqdm] write is not kept, but the evaluation of
    what they are given is: the conversion of integers to text, which
    CPython (3.11, [sys.int_max_str_digits] at its default) refuses
    beyond 4300 digits, the quotients of lines 59 and 97, and the length
    [tqdm] takes of the range.  What the operating system and the
    libraries refuse for reasons outside the program (a name too long, no
    permission, no memory, a corrupt file, a full disk) is a parameter of
    the model. *)

From Stdlib Require Import ZArith Lia Ascii.
From Stdlib Require String.
From stdpp Require Import gmap strings list pretty.

Local Open Scope Z_scope.

(** ** Exceptions and results *)

Inductive exception : Type :=
| FileNotFoundError (msg : string)
| ValueError (msg : string)
| TypeError (msg : string)
| ZeroDivisionError
| OverflowError
| MemoryError
| OSError (msg : string)
| FileExistsError (path : string)
| NotADirectoryError (path : string)
| LibraryError (what : string).

Inductive result (A : Type) : Type :=
| Ok (a : A)
| Raise (e : exception).

Arguments Ok {A} a.
Arguments Raise {A} e.

(** ** Binary64 values

    A finite binary64 value is kept as [mantissa * 2 ^ exponent].  Only
    finite values arise: Python raises instead of producing an infinity
    or a NaN from an integer quotient. *)

Record float64 : Type := Float { mantissa : Z; exponent : Z }.

(** [n / d] rounded to the nearest integer, ties to the even one
    ([0 <= n], [0 < d]). *)
Definition round_half_even (n d : Z) : Z :=
  let q := n / d in
  let r := n mod d in
  if 2 * r <? d then q
  else if d <? 2 * r then q + 1
  else if Z.even q then q else q + 1.

(** The fraction [(a / b) / 2 ^ e] as a numerator and a denominator. *)
Definition scale (a b e : Z) : Z * Z :=
  if 0 <=? e then (a, b * 2 ^ e) else (a * 2 ^ (- e), b).

(** The [e] with [2 ^ e <= a / b < 2 ^ (e + 1)], for positive [a], [b]. *)
Definition binade (a b : Z) : Z :=
  let d := Z.log2 a - Z.log2 b in
  let '(n, m) := scale a b d in
  if m <=? n then d else d - 1.

(** The binary64 value nearest to [a / b] (positive [a], [b]): 53
    significant bits, ties to even, gradual underflow below [2 ^ -1022]. *)
Definition round_binary64 (a b : Z) : float64 :=
  let e := Z.max (binade a b - 52) (-1074) in
  let '(n, m) := scale a b e in
  Float (round_half_even n m) e.

Definition is_finite (x : float64) : bool :=
  if 0 <=? exponent x then Z.abs (mantissa x) * 2 ^ exponent x <? 2 ^ 1024
  else true.

(** Python's [a / b] on two integers: the correctly rounded binary64
    quotient; [ZeroDivisionError] for [b = 0], [OverflowError] when the
    quotient is too large for a float. *)
Definition py_truediv (a b : Z) : result float64 :=
  if b =? 0 then Raise ZeroDivisionError
  else if a =? 0 then Ok (Float 0 0)
  else
    let x := round_binary64 (Z.abs a) (Z.abs b) in
    if is_finite x
    then Ok (Float (Z.sgn a * Z.sgn b * mantissa x) (exponent x))
    else Raise OverflowError.

(** [np.ceil] on a binary64 value; the result is an integral float. *)
Definition np_ceil (x : float64) : float64 :=
  if 0 <=? exponent x then x
  else Float (- ((- mantissa x) / 2 ^ (- exponent x))) 0.

(** Python's [int] on a float: truncation towards zero. *)
Definition py_int (x : float64) : Z :=
  if 0 <=? exponent x then mantissa x * 2 ^ exponent x
  else Z.quot (mantissa x) (2 ^ (- exponent x)).

Global Instance result_ret : MRet result := fun _ a => Ok a.
Global Instance result_bind : MBind result := fun _ _ f r =>
  match r with
  | Ok a => f a
  | Raise e => Raise e
  end.

(** ** Integers as text

    [f"{n}"], also with a format such as [03d], and [str] of a tuple
    holding [n]: a [ValueError] when [n] has more than 4300 decimal
    digits.  The text goes to the progress output and is not kept. *)

Definition int_max_str_digits : Z := 4300.

(** [10 ^ 4300], the least integer of more than 4300 digits, computed
    once. *)
Definition int_str_limit : Z := Eval vm_compute in 10 ^ int_max_str_digits.

Definition py_str_int (n : Z) : result unit :=
  if int_str_limit <=? Z.abs n then
    Raise (ValueError
             ("Exceeds the limit (4300 digits) for integer string conversion"
              +:+ "; use sys.set_int_max_str_digits() to increase the limit"))
  else Ok ().

(** ** Arrays

    A one-dimensional numpy array is the list of its elements. *)

(** A slice bound as Python resolves it against an array of [len]
    elements: a negative bound counts from the end, and the result is
    clamped to [0, len]. *)
Definition slice_index (len i : Z) : Z :=
  if i <? 0 then Z.max (i + len) 0 else Z.min i len.

(** [a[start:stop]]. *)
Definition np_slice {A} (a : list A) (start stop : Z) : list A :=
  let len := Z.of_nat (length a) in
  let lo := slice_index len start in
  let hi := slice_index len stop in
  take (Z.to_nat (hi - lo)) (drop (Z.to_nat lo) a).

Definition fits_int64 (n : Z) : bool := (- 2 ^ 63 <=? n) && (n <? 2 ^ 63).

(** [np.pad(a, (before, after), mode='constant', constant_values=c)].
    Widths that are no 64-bit integers are a [TypeError], negative ones a
    [ValueError]; then the result is allocated, which [alloc_error], the
    exception [np.empty] raises for an array of that many elements if it
    raises one, can refuse. *)
Definition np_pad {A} (alloc_error : Z -> option exception) (a : list A)
    (before after : Z) (c : A) : result (list A) :=
  if negb (fits_int64 before && fits_int64 after) then
    Raise (TypeError "`pad_width` must be of integral type.")
  else if (before <? 0) || (after <? 0) then
    Raise (ValueError "index can't contain negative values")
  else
    match alloc_error (before + Z.of_nat (length a) + after) with
    | Some e => Raise e
    | None =>
        Ok (replicate (Z.to_nat before) c ++ a
            ++ replicate (Z.to_nat after) c)
    end.

(** [range(n)]: empty for [n <= 0]. *)
Definition py_range (n : Z) : list Z := seqZ 0 n.

(** [tqdm(range(n), ...)]: it takes [len(range(n))], an [OverflowError]
    when [n] is no [ssize_t], and then yields the range. *)
Definition tqdm_range (n : Z) : result (list Z) :=
  if 2 ^ 63 <=? n then Raise OverflowError else Ok (py_range n).

(** ** The partition arithmetic of [convert_mp3_to_wav_clips] *)

(** Line 63; [int] of a product of two integers is the product. *)
Definition samples_per_clip (clip_duration sample_rate : Z) : Z :=
  clip_duration * sample_rate.

(** Line 64. *)
Definition total_samples {A} (audio_data : list A) : Z :=
  Z.of_nat (length audio_data).

(** Line 67. *)
Definition num_clips (total_samples samples_per_clip : Z) : result Z :=
  q ← py_truediv total_samples samples_per_clip;
  mret (py_int (np_ceil q)).

Section Clips.
Context {sample : Type}.
(** The sample value that [constant_values=0] denotes in the array's
    element type, and what [np.empty] refuses. *)
Variable zero : sample.
Variable alloc_error : Z -> option exception.

(** Lines 77 and 78. *)
Definition start_sample (i samples_per_clip : Z) : Z :=
  i * samples_per_clip.
Definition end_sample (i samples_per_clip total_samples : Z) : Z :=
  Z.min ((i + 1) * samples_per_clip) total_samples.

(** Line 81: the clip as sliced, before any padding. *)
Definition raw_clip (audio_data : list sample) (samples_per_clip i : Z)
  : list sample :=
  np_slice audio_data (start_sample i samples_per_clip)
    (end_sample i samples_per_clip (total_samples audio_data)).

(** Lines 81 to 86: the clip handed to the encoder. *)
Definition clip_data (audio_data : list sample) (samples_per_clip i : Z)
  : result (list sample) :=
  let raw := raw_clip audio_data samples_per_clip i in
  if Z.of_nat (length raw) <? samples_per_clip then
    let padding_length := samples_per_clip - Z.of_nat (length raw) in
    np_pad alloc_error raw 0 padding_length zero
  else Ok raw.

(** The clips of one run in loop order, lines 63 to 86 without the
    messages and the file-system steps in between. *)
Definition clips (audio_data : list sample)
    (clip_duration sample_rate : Z) : result (list (list sample)) :=
  let spc := samples_per_clip clip_duration sample_rate in
  n ← num_clips (total_samples audio_data) spc;
  indices ← tqdm_range n;
  mapM (clip_data audio_data spc) indices.

(** What [clip_data] returns when it returns: the slice, and zeros up
    to the clip length behind it. *)
Definition padded_clip (audio_data : list sample) (samples_per_clip i : Z)
  : list sample :=
  let raw := raw_clip audio_data samples_per_clip i in
  raw ++ replicate (Z.to_nat (samples_per_clip - Z.of_nat (length raw))) zero.
End Clips.

(** ** Strings *)

Definition ascii_lower (c : ascii) : ascii :=
  let n := Ascii.N_of_ascii c in
  if ((65 <=? n) && (n <=? 90))%N then Ascii.ascii_of_N (n + 32) else c.

(** [s.lower()].  Strings are byte strings here; only the ASCII letters
    have a lower case, and no other character lowers to an ASCII one that
    occurs in [".mp3"]. *)
Fixpoint lower (s : string) : string :=
  match s with
  | EmptyString => EmptyString
  | String c s' => String (ascii_lower c) (lower s')
  end.

(** [s.split(sep)] for a one-character separator. *)
Fixpoint split (sep : ascii) (s : string) : list string :=
  match s with
  | EmptyString => [EmptyString]
  | String c s' =>
      if Ascii.eqb c sep then EmptyString :: split sep s'
      else match split sep s' with
           | [] => [String c EmptyString]
           | w :: ws => String c w :: ws
           end
  end.

(** [s.rfind(c)], with [None] for Python's [-1]. *)
Fixpoint rfind (c : ascii) (s : string) : option nat :=
  match s with
  | EmptyString => None
  | String c' s' =>
      match rfind c s' with
      | Some i => Some (S i)
      | None => if Ascii.eqb c' c then Some 0%nat else None
      end
  end.

Fixpoint string_replicate (n : nat) (c : ascii) : string :=
  match n with
  | O => EmptyString
  | S n' => String c (string_replicate n' c)
  end.

(** The digits [s] filled with zeros on the left up to [width]. *)
Definition zfill (width : nat) (s : string) : string :=
  string_replicate (width - String.length s) "0" +:+ s.

(** [f"{n:03d}"]: decimal, at least three characters, zeros after the
    sign. *)
Definition format_03d (n : Z) : string :=
  if n <? 0 then "-" +:+ zfill 2 (pretty (Z.to_N (- n)))
  else zfill 3 (pretty (Z.to_N n)).

(** [c in s]. *)
Fixpoint contains (c : ascii) (s : string) : bool :=
  match s with
  | EmptyString => false
  | String c' s' => Ascii.eqb c' c || contains c s'
  end.

(** *** Reading decimal digits back

    What "zero-padded to [width] digits" says of a string [t] and a
    number [n]: [t] has decimal digits only, their value is [n], there are
    at least [width] of them, and beyond [width] none is a zero in
    front. *)
Definition is_digit (c : ascii) : bool :=
  let n := Ascii.N_of_ascii c in ((48 <=? n) && (n <=? 57))%N.

Fixpoint is_digits (s : string) : bool :=
  match s with
  | EmptyString => true
  | String c s' => is_digit c && is_digits s'
  end.

Fixpoint decimal_value_from (acc : N) (s : string) : N :=
  match s with
  | EmptyString => acc
  | String c s' =>
      decimal_value_from (10 * acc + (Ascii.N_of_ascii c - 48))%N s'
  end.

Definition decimal_value (s : string) : N := decimal_value_from 0 s.

Definition zero_padded (width : nat) (n : N) (t : string) : Prop :=
  is_digits t = true /\ decimal_value t = n /\
  (width <= String.length t)%nat /\
  ((width < String.length t)%nat -> forall rest, t <> String "0" rest).

(** ** Paths: [pathlib.PurePosixPath] *)

Record PurePath : Type := { root : string; tail : list string }.

(** The root of a POSIX path: exactly two leading slashes are kept, any
    other number of them is one. *)
Definition splitroot (p : string) : string * string :=
  match p with
  | String c1 rest1 =>
      if Ascii.eqb c1 "/" then
        match rest1 with
        | String c2 rest2 =>
            if Ascii.eqb c2 "/" then
              match rest2 with
              | String c3 _ =>
                  if Ascii.eqb c3 "/" then ("/", rest1) else ("//", rest2)
              | EmptyString => ("//", rest2)
              end
            else ("/", rest1)
        | EmptyString => ("/", rest1)
        end
      else ("", p)
  | EmptyString => ("", p)
  end.

(** [Path(s)]: empty and ["."] components are dropped. *)
Definition Path (s : string) : PurePath :=
  let '(r, rel) := splitroot s in
  {| root := r;
     tail := filter (fun x => x <> "" /\ x <> ".") (split "/" rel) |}.

(** [str(p)]. *)
Definition path_str (p : PurePath) : string :=
  match root p, tail p with
  | EmptyString, [] => "."
  | r, t => r +:+ String.concat "/" t
  end.

(** [p.name], [p.suffix] and [p.stem]. *)
Definition name (p : PurePath) : string := List.last (tail p) "".

Definition suffix (p : PurePath) : string :=
  let n := name p in
  match rfind "." n with
  | Some i =>
      if ((0 <? i) && (i <? String.length n - 1))%nat
      then String.substring i (String.length n - i) n else ""
  | None => ""
  end.

Definition stem (p : PurePath) : string :=
  let n := name p in
  match rfind "." n with
  | Some i =>
      if ((0 <? i) && (i <? String.length n - 1))%nat
      then String.substring 0 i n else n
  | None => n
  end.

(** [p / key]: an absolute [key] replaces [p]. *)
Definition truediv (p : PurePath) (key : string) : PurePath :=
  let q := Path key in
  if decide (root q = "") then {| root := root p; tail := tail p ++ tail q |}
  else q.

(** The directories on the way to [p], outermost first, [p] itself last. *)
Definition lineage (p : PurePath) : list PurePath :=
  match tail p with
  | [] => [p]
  | t => (fun k => {| root := root p; tail := take k t |})
         <$> seq 1 (length t)
  end.

(** Line 89. *)
Definition clip_filename (base_filename : string) (i : Z) : string :=
  base_filename +:+ "_clip_" +:+ format_03d (i + 1) +:+ ".wav".

(** ** The file system and the calls that leave the program *)

Section Orchestrator.
Context {sample : Type}.
Variable zero : sample.

Inductive file : Type :=
| Bytes (content : string)
| Wav (data : list sample) (samplerate : Z).

Inductive event : Type :=
| CallExists (path : string)
| CallMkdir (path : string)
| CallLoad (path : string) (sr : Z)
| CallWrite (path : string) (data : list sample) (samplerate : Z).

(** Files and directories by the string of their path, and the calls
    made so far, oldest first. *)
Record World : Type := {
  files : gmap string file;
  dirs : gset string;
  trace : list event
}.

(** What lies outside the program.
    - [alloc_error n]: the exception [np.empty] raises for an array of
      [n] samples, if it raises one.
    - [stat_error path]: the [OSError] of [os.stat] on [path] other than
      the ones that say the path is not there (a name too long, no
      permission), if there is one.
    - [mkdir_error path]: the exception [os.mkdir] raises on the way to
      [path] other than for a file in the way, if it raises one.
    - [decode fs path sr]: what [librosa.load(path, sr=sr, mono=True)]
      returns on the file system [fs], the decoded mono samples at rate
      [sr], or the exception it raises.
    - [encode_error fs path data sr]: the exception
      [sf.write(path, data, sr)] raises on [fs], if it raises one.  A
      failing call stores nothing. *)
Record Env : Type := {
  alloc_error : Z -> option exception;
  stat_error : string -> option exception;
  mkdir_error : string -> option exception;
  decode : gmap string file -> string -> Z -> result (list sample);
  encode_error :
    gmap string file -> string -> list sample -> Z -> option exception
}.

Variable env : Env.

Definition M (A : Type) : Type := World -> result A * World.

Global Instance M_ret : MRet M := fun _ a w => (Ok a, w).
Global Instance M_bind : MBind M := fun _ _ f m w =>
  match m w with
  | (Ok a, w') => f a w'
  | (Raise e, w') => (Raise e, w')
  end.

Definition raise {A} (e : exception) : M A := fun w => (Raise e, w).
Definition lift {A} (r : result A) : M A := fun w => (r, w).
Definition get : M World := fun w => (Ok w, w).
Definition put (w : World) : M unit := fun _ => (Ok (), w).
Definition record_call (w : World) (ev : event) : World :=
  {| files := files w; dirs := dirs w; trace := trace w ++ [ev] |}.
Definition call (ev : event) : M unit :=
  w ← get;
  put (record_call w ev).

(** Is a file or a directory at [path]? *)
Definition present (w : World) (path : string) : bool :=
  bool_decide (is_Some (files w !! path)) || bool_decide (path ∈ dirs w).

(** [p.exists()]: an [OSError] of [os.stat] that does not say the path
    is missing is raised again. *)
Definition Path_exists (p : PurePath) : M bool :=
  _ ← call (CallExists (path_str p));
  match stat_error env (path_str p) with
  | Some e => raise e
  | None => w ← get; mret (present w (path_str p))
  end.

(** [p.mkdir(parents=True, exist_ok=True)]: a file on the way is an
    error and nothing is created; otherwise every missing directory on
    the way is. *)
Definition Path_mkdir (p : PurePath) : M unit :=
  _ ← call (CallMkdir (path_str p));
  match mkdir_error env (path_str p) with
  | Some e => raise e
  | None =>
      w ← get;
      let chain := path_str <$> lineage p in
      match list_find (fun q => is_Some (files w !! q)) chain with
      | Some (_, q) =>
          raise (if decide (q = path_str p) then FileExistsError q
                 else NotADirectoryError q)
      | None =>
          put {| files := files w;
                 dirs := dirs w ∪ list_to_set chain;
                 trace := trace w |}
      end
  end.

(** [librosa.load(path, sr=sr, mono=True)]; the rate returned with the
    samples is [sr]. *)
Definition librosa_load (path : string) (sr : Z) : M (list sample * Z) :=
  _ ← call (CallLoad path sr);
  w ← get;
  audio_data ← lift (decode env (files w) path sr);
  mret (audio_data, sr).

(** [sf.write(path, data, samplerate)]. *)
Definition sf_write (path : string) (data : list sample) (samplerate : Z)
  : M unit :=
  _ ← call (CallWrite path data samplerate);
  w ← get;
  match encode_error env (files w) path data samplerate with
  | Some e => raise e
  | None =>
      put {| files := <[path := Wav data samplerate]> (files w);
             dirs := dirs w;
             trace := trace w |}
  end.

(** Line 90. *)
Definition clip_path (output_path : PurePath) (base_filename : string)
    (i : Z) : PurePath :=
  truediv output_path (clip_filename base_filename i).

(** Lines 77 to 98: one turn of the loop, for clip [i]; the path of
    the file written is what line 94 appends to [created_files].  The
    number line 89 formats is at most the clip count, which line 69 has
    turned into text before. *)
Definition write_clip (audio_data : list sample) (samples_per_clip : Z)
    (base_filename : string) (output_path : PurePath) (sample_rate : Z)
    (i : Z) : M string :=
  data ← lift (clip_data zero (alloc_error env) audio_data
                 samples_per_clip i);
  let path := path_str (clip_path output_path base_filename i) in
  _ ← sf_write path data sample_rate;
  clip_duration_actual ←
    lift (py_truediv (Z.of_nat (length data)) sample_rate);
  mret path.

(** Lines 76 to 98: the loop over the clip indices that remain, with
    the list of files created so far. *)
Fixpoint write_clips (audio_data : list sample) (samples_per_clip : Z)
    (base_filename : string) (output_path : PurePath) (sample_rate : Z)
    (indices : list Z) (created_files : list string) : M (list string) :=
  match indices with
  | [] => mret created_files
  | i :: rest =>
      path ← write_clip audio_data samples_per_clip base_filename
                output_path sample_rate i;
      write_clips audio_data samples_per_clip base_filename output_path
        sample_rate rest (created_files ++ [path])
  end.

(** Lines 58 to 76, between the decoder and the first turn of the loop:
    the messages of lines 58, 59, 60 and 69 with the numbers they turn
    into text, the clip count of line 67, and the range [tqdm] is
    given.  Nothing here leaves the program. *)
Definition plan_clips (audio_data : list sample)
    (clip_duration sample_rate orig_sr : Z) : result (list Z) :=
  _ ← py_str_int orig_sr;
  _ ← py_str_int sample_rate;
  duration ← py_truediv (total_samples audio_data) sample_rate;
  _ ← py_str_int (total_samples audio_data);
  let spc := samples_per_clip clip_duration sample_rate in
  n ← num_clips (total_samples audio_data) spc;
  _ ← py_str_int n;
  _ ← py_str_int clip_duration;
  tqdm_range n.

(** Lines 28 to 100. *)
Definition convert_mp3_to_wav_clips (input_file output_dir : string)
    (clip_duration sample_rate : Z) : M (list string) :=
  let input_path := Path input_file in
  found ← Path_exists input_path;
  if negb found then
    raise (FileNotFoundError ("Input file not found: " +:+ input_file))
  else if negb (bool_decide (lower (suffix input_path) ∈ [".mp3"])) then
    raise (ValueError ("Input file must be MP3 format, got: "
                       +:+ suffix input_path))
  else
    let output_path := Path output_dir in
    _ ← Path_mkdir output_path;
    '(audio_data, orig_sr) ← librosa_load input_file sample_rate;
    indices ← lift (plan_clips audio_data clip_duration sample_rate orig_sr);
    let spc := samples_per_clip clip_duration sample_rate in
    let base_filename := stem input_path in
    write_clips audio_data spc base_filename output_path sample_rate
      indices [].

(** *** What a run leaves behind

    The files on disk once clip [i] is stored, once the clips before
    index [k] are, the call to [sf.write] for clip [i], and the sample
    data of the [sf.write] calls of a trace. *)
Definition store_clip (audio_data : list sample) (samples_per_clip : Z)
    (base_filename : string) (output_path : PurePath) (sample_rate : Z)
    (fs : gmap string file) (i : Z) : gmap string file :=
  <[path_str (clip_path output_path base_filename i) :=
      Wav (padded_clip zero audio_data samples_per_clip i) sample_rate]> fs.

Definition files_after (audio_data : list sample) (samples_per_clip : Z)
    (base_filename : string) (output_path : PurePath) (sample_rate : Z)
    (fs : gmap string file) (k : Z) : gmap string file :=
  foldl (store_clip audio_data samples_per_clip base_filename output_path
           sample_rate) fs (py_range k).

Definition write_call (audio_data : list sample) (samples_per_clip : Z)
    (base_filename : string) (output_path : PurePath) (sample_rate : Z)
    (i : Z) : event :=
  CallWrite (path_str (clip_path output_path base_filename i))
    (padded_clip zero audio_data samples_per_clip i) sample_rate.

(** [os.stat] does not fail on the input path, a file or a directory is
    there, and the suffix is accepted. *)
Definition valid_input (input_file : string) (w : World)
  : Prop :=
  stat_error env (path_str (Path input_file)) = None
  /\ (is_Some (files w !! path_str (Path input_file))
      \/ path_str (Path input_file) ∈ dirs w)
  /\ lower (suffix (Path input_file)) = ".mp3".

(** [mkdir] goes through: the operating system does not refuse, and no
    file is in the way. *)
Definition mkdir_free (output_dir : string) (w : World) : Prop :=
  mkdir_error env (path_str (Path output_dir)) = None
  /\ Forall (fun q => files w !! path_str q = None)
       (lineage (Path output_dir)).

(** The run gets to the loop with the buffer [audio_data] and the clip
    count [n]: the input is accepted, the directory made, the file
    decoded, and lines 58 to 76 raise nothing: the buffer is an array
    (fewer than [2 ^ 63] samples), the sample rate is not 0, sample rate,
    clip duration and clip count have at most 4300 digits, the quotient
    of line 67 is finite, and the clip count is a [ssize_t]. *)
Definition reaches_loop (input_file output_dir : string)
    (clip_duration sample_rate : Z) (w : World)
    (audio_data : list sample) (n : Z) : Prop :=
  valid_input input_file w
  /\ mkdir_free output_dir w
  /\ decode env (files w) input_file sample_rate = Ok audio_data
  /\ total_samples audio_data < 2 ^ 63
  /\ sample_rate <> 0
  /\ Z.abs sample_rate < 10 ^ int_max_str_digits
  /\ Z.abs clip_duration < 10 ^ int_max_str_digits
  /\ num_clips (total_samples audio_data)
       (samples_per_clip clip_duration sample_rate) = Ok n
  /\ Z.abs n < 2 ^ 63.

(** A clip of the run can be made and reported: the clip length is
    positive and the length of an array that [np.empty] grants. *)
Definition clip_fits (clip_duration sample_rate : Z) : Prop :=
  0 < samples_per_clip clip_duration sample_rate < 2 ^ 63
  /\ alloc_error env (samples_per_clip clip_duration sample_rate) = None.

(** The world when the loop starts. *)
Definition loaded (input_file output_dir : string) (sample_rate : Z) (w : World)
  : World :=
  {| files := files w;
     dirs := dirs w
             ∪ list_to_set (path_str <$> lineage (Path output_dir));
     trace := trace w
              ++ [CallExists (path_str (Path input_file));
                  CallMkdir (path_str (Path output_dir));
                  CallLoad input_file sample_rate] |}.

(** The calls a run from [w] to [w'] has added to the trace. *)
Definition new_calls (w w' : World) : list event :=
  drop (length (trace w)) (trace w').

Definition written_data (t : list event) : list (list sample) :=
  omap (fun ev => match ev with
                  | CallWrite _ data _ => Some data
                  | _ => None
                  end) t.

End Orchestrator.

(** ** Sample inputs

    A file system holding one MP3 file; an environment that refuses
    nothing and decodes five samples from a file of bytes; variants of it
    that decode no sample or half a second of silence, that have the disk
    full at the second clip, and that have names of at most 255
    characters. *)

Definition demo_world : @World Z :=
  {| files := {[ "track.mp3" := Bytes "ID3" ]}; dirs := ∅; trace := [] |}.

Definition demo_decode (fs : gmap string (@file Z)) (path : string) (sr : Z)
  : result (list Z) :=
  match fs !! path with
  | Some (Bytes _) => Ok [1; 2; 3; 4; 5]
  | _ => Raise (LibraryError "decode")
  end.

Definition demo_env : @Env Z :=
  {| alloc_error := fun _ => None;
     stat_error := fun _ => None;
     mkdir_error := fun _ => None;
     decode := demo_decode;
     encode_error := fun _ _ _ _ => None |}.

Definition with_decode (env : @Env Z)
    (d : gmap string (@file Z) -> string -> Z -> result (list Z)) : Env :=
  {| alloc_error := alloc_error env;
     stat_error := stat_error env;
     mkdir_error := mkdir_error env;
     decode := d;
     encode_error := encode_error env |}.

Definition demo_env_empty : @Env Z :=
  with_decode demo_env (fun _ _ _ => Ok []).

(** Half a second of silence at 16 kHz. *)
Definition demo_env_half_second : @Env Z :=
  with_decode demo_env (fun _ _ _ => Ok (replicate (Z.to_nat 8000) 0)).

Definition demo_env_disk_full : @Env Z :=
  {| alloc_error := fun _ => None;
     stat_error := fun _ => None;
     mkdir_error := fun _ => None;
     decode := demo_decode;
     encode_error := fun _ path _ _ =>
       if decide (path = "out/track_clip_002.wav")
       then Some (LibraryError "disk full") else None |}.

Definition demo_env_name_max : @Env Z :=
  {| alloc_error := fun _ => None;
     stat_error := fun path =>
       if (255 <? String.length path)%nat
       then Some (OSError "[Errno 36] File name too long") else None;
     mkdir_error := fun _ => None;
     decode := demo_decode;
     encode_error := fun _ _ _ _ => None |}.

(** * Proofs *)

(** ** The binary64 quotient *)

Section Rounding.

Lemma round_half_even_le n d K :
  0 < d -> n <= K * d -> round_half_even n d <= K.
Proof.
  intros Hd Hn. unfold round_half_even.
  pose proof (Z.div_mod n d ltac:(lia)) as Hdm.
  pose proof (Z.mod_pos_bound n d Hd) as Hr.
  assert (n / d <= K) by nia.
  assert (0 < n mod d -> n / d + 1 <= K) by nia.
  repeat case_match; lia.
Qed.

Lemma round_half_even_gt n d J P :
  0 < d -> d < 2 * P -> J * d + P <= n -> J < round_half_even n d.
Proof.
  intros Hd HP Hn. unfold round_half_even.
  pose proof (Z.div_mod n d ltac:(lia)) as Hdm.
  pose proof (Z.mod_pos_bound n d Hd) as Hr.
  assert (J <= n / d) by nia.
  assert (n / d = J -> d < 2 * (n mod d)) by nia.
  repeat case_match; lia.
Qed.

Lemma binade_le_log2 a b : 0 < b -> binade a b <= Z.log2 a.
Proof.
  intros Hb. unfold binade.
  pose proof (Z.log2_nonneg b).
  destruct (scale a b _) as [n m]. case_match; lia.
Qed.

(** [2 ^ binade a b <= a / b], in the two shapes [scale] gives it. *)
Lemma binade_lower a b :
  0 < a -> 0 < b ->
  let e := binade a b in
  (0 <= e -> b * 2 ^ e <= a) /\ (e < 0 -> b <= a * 2 ^ (- e)).
Proof.
  intros Ha Hb.
  destruct (Z.log2_spec a Ha) as [Hal Hau].
  destruct (Z.log2_spec b Hb) as [Hbl Hbu].
  pose proof (Z.log2_nonneg a) as Hla. pose proof (Z.log2_nonneg b) as Hlb.
  unfold binade, scale.
  remember (Z.log2 a - Z.log2 b) as d eqn:Hdef.
  destruct (Z.leb_spec 0 d) as [Hd|Hd].
  - destruct (Z.leb_spec (b * 2 ^ d) a) as [Ht|Ht]; cbn zeta.
    + split; [lia|lia].
    + split; intros He.
      * assert (Z.log2 a = Z.succ (Z.log2 b) + (d - 1)) as Heq by lia.
        rewrite Heq, Z.pow_add_r in Hal by lia.
        assert (0 < 2 ^ (d - 1)) by (apply Z.pow_pos_nonneg; lia). nia.
      * assert (d = 0) as Hd0 by lia. rewrite Hd0. change (- (0 - 1)) with 1.
        assert (Z.log2 a = Z.log2 b) as Heq by lia. rewrite Heq in Hal.
        rewrite Z.pow_succ_r in Hbu by lia. lia.
  - assert (Hsplit : Z.succ (Z.log2 b) = Z.log2 a + (1 - d)) by lia.
    assert (0 < 2 ^ (- d)) by (apply Z.pow_pos_nonneg; lia).
    destruct (Z.leb_spec b (a * 2 ^ (- d))) as [Ht|Ht]; cbn zeta.
    + split; [lia|]. intros _. exact Ht.
    + split; [lia|]. intros _.
      replace (- (d - 1)) with (1 - d) by lia.
      rewrite Hsplit, Z.pow_add_r in Hbu by lia.
      assert (0 < 2 ^ (1 - d)) by (apply Z.pow_pos_nonneg; lia). nia.
Qed.

(** Below [2 ^ 53] the exponent of the rounded quotient is not positive,
    and the scaled fraction has the divisor as its denominator. *)
Lemma round_binary64_small a b :
  0 < a < 2 ^ 53 -> 0 < b ->
  let e := exponent (round_binary64 a b) in
  e <= 0 /\ e = Z.max (binade a b - 52) (-1074) /\
  mantissa (round_binary64 a b) = round_half_even (a * 2 ^ (- e)) b.
Proof.
  intros [Ha Ha53] Hb.
  pose proof (binade_le_log2 a b Hb) as HE.
  pose proof (Z.log2_lt_pow2 a 53 Ha) as [Hlog _]. specialize (Hlog Ha53).
  unfold round_binary64.
  set (e := Z.max (binade a b - 52) (-1074)).
  assert (He : e <= 0) by lia.
  assert (Hscale : round_half_even (scale a b e).1 (scale a b e).2
                   = round_half_even (a * 2 ^ (- e)) b).
  { unfold scale. destruct (Z.leb_spec 0 e) as [He0|He0]; [|done].
    assert (e = 0) as -> by lia. cbn [fst snd]. change (2 ^ 0) with 1.
    change (2 ^ (- 0)) with 1. by rewrite !Z.mul_1_r. }
  destruct (scale a b e) as [n m] eqn:Hs. cbn [fst snd] in Hscale.
  cbn [exponent mantissa]. by rewrite Hscale.
Qed.

(** Rounding never carries the quotient above an integer it does not
    exceed ... *)
Lemma round_binary64_upper a b k :
  0 < a < 2 ^ 53 -> 0 < b -> a <= k * b ->
  let x := round_binary64 a b in
  mantissa x <= k * 2 ^ (- exponent x).
Proof.
  intros Ha Hb Hhi.
  destruct (round_binary64_small a b Ha Hb) as (He & _ & Hm).
  cbn zeta in *. rewrite Hm.
  assert (0 < 2 ^ (- exponent (round_binary64 a b)))
    by (apply Z.pow_pos_nonneg; lia).
  apply round_half_even_le; [lia|nia].
Qed.

(** ... nor, when the divisor is below [2 ^ 1075], down to an integer it
    exceeds. *)
Lemma round_binary64_lower a b k :
  0 < a < 2 ^ 53 -> 0 < b < 2 ^ 1075 -> k * b < a ->
  let x := round_binary64 a b in
  k * 2 ^ (- exponent x) < mantissa x.
Proof.
  intros [Ha Ha53] [Hb Hb1075] Hlo.
  destruct (round_binary64_small a b ltac:(lia) Hb) as (He & Hdef & Hm).
  destruct (binade_lower a b Ha Hb) as [Hge Hlt].
  cbn zeta in *. rewrite Hm.
  set (E := binade a b) in *.
  set (e := exponent (round_binary64 a b)) in *.
  assert (HP : 0 < 2 ^ (- e)) by (apply Z.pow_pos_nonneg; lia).
  assert (Hb2 : b < 2 * 2 ^ (- e)).
  { destruct (Z.max_spec (E - 52) (-1074)) as [[_ Hmx]|[_ Hmx]];
      rewrite <- Hdef in Hmx; rewrite Hmx.
    - change (2 * 2 ^ (- -1074)) with (2 ^ 1075). lia.
    - rewrite <- Z.pow_succ_r by lia.
      replace (Z.succ (- (E - 52))) with (53 - E) by lia.
      destruct (Z.leb_spec 0 E) as [HE0|HE0].
      + specialize (Hge HE0).
        assert (2 ^ 53 = 2 ^ E * 2 ^ (53 - E)) as Hsp
          by (rewrite <- Z.pow_add_r by lia; f_equal; lia).
        assert (0 < 2 ^ E) by (apply Z.pow_pos_nonneg; lia). nia.
      + specialize (Hlt HE0).
        assert (2 ^ (53 - E) = 2 ^ 53 * 2 ^ (- E)) as Hsp
          by (rewrite <- Z.pow_add_r by lia; f_equal; lia).
        assert (0 < 2 ^ (- E)) by (apply Z.pow_pos_nonneg; lia). nia. }
  apply round_half_even_gt with (P := 2 ^ (- e)); [lia|lia|nia].
Qed.

End Rounding.

(** The value [num_clips] returns from a quotient of positive integers
    whose rounding [m * 2 ^ e] has [e <= 0]. *)
Lemma py_int_np_ceil_small m e k :
  e <= 0 -> (k - 1) * 2 ^ (- e) < m <= k * 2 ^ (- e) ->
  py_int (np_ceil (Float m e)) = k.
Proof.
  intros He [Hm1 Hm2].
  assert (HP : 0 < 2 ^ (- e)) by (apply Z.pow_pos_nonneg; lia).
  unfold np_ceil, py_int. cbn [mantissa exponent].
  destruct (Z.leb_spec 0 e) as [He0|He0].
  - assert (e = 0) as -> by lia. change (2 ^ (- 0)) with 1 in *.
    cbn [mantissa exponent]. change (0 <=? 0) with true. cbv iota.
    change (2 ^ 0) with 1. lia.
  - cbn [mantissa exponent]. change (0 <=? 0) with true. cbv iota.
    change (2 ^ 0) with 1. rewrite Z.mul_1_r.
    assert ((- m) / 2 ^ (- e) = - k) as ->; [|lia].
    symmetry. apply (Z.div_unique_pos _ _ _ (k * 2 ^ (- e) - m)); lia.
Qed.

(** For a buffer shorter than [2 ^ 53] the quotient is finite and the clip
    count is at most the exact ceiling. *)
Lemma num_clips_upper L s :
  0 <= L < 2 ^ 53 -> 0 < s ->
  exists n, num_clips L s = Ok n /\ 0 <= n /\ (n - 1) * s < L.
Proof.
  intros HL Hs. unfold num_clips, py_truediv.
  destruct (Z.eqb_spec s 0) as [?|_]; [lia|].
  destruct (Z.eqb_spec L 0) as [->|HL0].
  { exists 0. cbn. split; [done|lia]. }
  rewrite (Z.abs_eq L), (Z.abs_eq s) by lia.
  set (k := (L + s - 1) / s).
  assert (Hk : (k - 1) * s < L <= k * s).
  { pose proof (Z.div_mod (L + s - 1) s ltac:(lia)).
    pose proof (Z.mod_pos_bound (L + s - 1) s ltac:(lia)). subst k. nia. }
  assert (Hk53 : 0 < k < 2 ^ 53) by nia.
  destruct (round_binary64_small L s ltac:(lia) Hs) as (He & _ & Hm).
  pose proof (round_binary64_upper L s k ltac:(lia) Hs ltac:(lia)) as Hup.
  cbn zeta in *.
  destruct (round_binary64 L s) as [m e]. cbn [mantissa exponent] in *.
  assert (HP : 0 < 2 ^ (- e)) by (apply Z.pow_pos_nonneg; lia).
  assert (Hm0 : 0 <= m).
  { rewrite Hm. unfold round_half_even.
    assert (0 <= L * 2 ^ (- e) / s) by (apply Z.div_pos; nia).
    repeat case_match; lia. }
  assert (Hfin : is_finite (Float m e) = true).
  { unfold is_finite. cbn [mantissa exponent].
    destruct (Z.leb_spec 0 e); [|done].
    assert (e = 0) as -> by lia. change (2 ^ (- 0)) with 1 in *.
    change (2 ^ 0) with 1. apply Z.ltb_lt.
    assert (2 ^ 53 < 2 ^ 1024) by (apply Z.pow_lt_mono_r; lia). lia. }
  rewrite Hfin. cbn [mbind result_bind mret result_ret].
  rewrite (Z.sgn_pos L), (Z.sgn_pos s) by lia. rewrite !Z.mul_1_l.
  set (j := (m + 2 ^ (- e) - 1) / 2 ^ (- e)).
  assert (Hj : (j - 1) * 2 ^ (- e) < m <= j * 2 ^ (- e)).
  { pose proof (Z.div_mod (m + 2 ^ (- e) - 1) (2 ^ (- e)) ltac:(lia)).
    pose proof (Z.mod_pos_bound (m + 2 ^ (- e) - 1) (2 ^ (- e)) HP).
    subst j. nia. }
  exists j. rewrite (py_int_np_ceil_small m e j He Hj).
  split; [done|]. split; [nia|].
  assert (j <= k) by nia. nia.
Qed.

(** The clip count is the exact ceiling while the buffer length stays
    below [2 ^ 53] and the clip length below [2 ^ 1075]. *)
Lemma num_clips_exact L s :
  0 <= L < 2 ^ 53 -> 0 < s < 2 ^ 1075 ->
  exists n, num_clips L s = Ok n /\ (n - 1) * s < L <= n * s.
Proof.
  intros HL Hs.
  destruct (num_clips_upper L s HL ltac:(lia)) as (n & Hn & Hn0 & Hlo).
  exists n. split; [done|]. split; [done|].
  revert Hn. unfold num_clips, py_truediv.
  destruct (Z.eqb_spec s 0) as [?|_]; [lia|].
  destruct (Z.eqb_spec L 0) as [->|HL0].
  { cbn. intros [= <-]. lia. }
  rewrite (Z.abs_eq L), (Z.abs_eq s) by lia.
  destruct (round_binary64_small L s ltac:(lia) ltac:(lia)) as (He & _ & _).
  pose proof (round_binary64_lower L s) as Hlow. cbn zeta in *.
  destruct (round_binary64 L s) as [m e]. cbn [mantissa exponent] in *.
  assert (HP : 0 < 2 ^ (- e)) by (apply Z.pow_pos_nonneg; lia).
  destruct (is_finite _); [|done]. cbn [mbind result_bind mret result_ret].
  rewrite (Z.sgn_pos L), (Z.sgn_pos s) by lia. rewrite !Z.mul_1_l.
  intros [= Hpy].
  destruct (Z.le_gt_cases L (n * s)) as [|Hgt]; [done|exfalso].
  specialize (Hlow n ltac:(lia) Hs Hgt).
  assert (Hn' : py_int (np_ceil (Float m e)) = n) by done.
  revert Hn'. unfold np_ceil, py_int. cbn [mantissa exponent].
  destruct (Z.leb_spec 0 e) as [He0|He0]; cbn [mantissa exponent].
  - assert (e = 0) as -> by lia. change (2 ^ (- 0)) with 1 in *.
    change (0 <=? 0) with true. cbv iota. change (2 ^ 0) with 1. lia.
  - change (0 <=? 0) with true. cbv iota. change (2 ^ 0) with 1.
    rewrite Z.mul_1_r. intros Hq.
    pose proof (Z.div_mod (- m) (2 ^ (- e)) ltac:(lia)).
    pose proof (Z.mod_pos_bound (- m) (2 ^ (- e)) HP). nia.
Qed.


(** The rounded quotient is not negative ... *)
Lemma round_half_even_nonneg n d : 0 <= n -> 0 < d -> 0 <= round_half_even n d.
Proof.
  intros Hn Hd. unfold round_half_even.
  assert (0 <= n / d) by (by apply Z.div_pos).
  repeat case_match; lia.
Qed.

Lemma round_binary64_nonneg a b :
  0 < a -> 0 < b -> 0 <= mantissa (round_binary64 a b).
Proof.
  intros Ha Hb. unfold round_binary64, scale.
  set (e := Z.max (binade a b - 52) (-1074)).
  destruct (Z.leb_spec 0 e); cbn [mantissa].
  - apply round_half_even_nonneg; [lia|].
    assert (0 < 2 ^ e) by (apply Z.pow_pos_nonneg; lia). nia.
  - apply round_half_even_nonneg; [|done].
    assert (0 < 2 ^ (- e)) by (apply Z.pow_pos_nonneg; lia). nia.
Qed.

(** ... and finite when the numerator is below [2 ^ 1023]: the quotients
    of lines 59 and 97, of an array length by the sample rate, raise for a
    sample rate of 0 only. *)
Lemma round_binary64_finite a b :
  0 < a < 2 ^ 1023 -> 0 < b -> is_finite (round_binary64 a b) = true.
Proof.
  intros [Ha Ha1023] Hb.
  pose proof (round_binary64_nonneg a b Ha Hb) as Hm.
  pose proof (binade_le_log2 a b Hb) as HE.
  pose proof (Z.log2_lt_pow2 a 1023 Ha) as [Hlog _]. specialize (Hlog Ha1023).
  revert Hm. unfold round_binary64, is_finite, scale.
  remember (Z.max (binade a b - 52) (-1074)) as e eqn:He.
  destruct (Z.leb_spec 0 e) as [He0|He0]; cbn [mantissa exponent];
    rewrite ?(proj2 (Z.leb_le 0 e) He0), ?(proj2 (Z.leb_gt 0 e) He0);
    [|done].
  intros Hm. apply Z.ltb_lt. rewrite Z.abs_eq by done.
  assert (HP : 0 < 2 ^ e) by (apply Z.pow_pos_nonneg; lia).
  assert (Hsplit : 2 ^ 1023 = 2 ^ (1023 - e) * 2 ^ e)
    by (rewrite <- Z.pow_add_r by lia; f_equal; lia).
  assert (HK : 0 < 2 ^ (1023 - e)) by (apply Z.pow_pos_nonneg; lia).
  assert (round_half_even a (b * 2 ^ e) <= 2 ^ (1023 - e))
    by (apply round_half_even_le; nia).
  assert (2 ^ 1024 = 2 * 2 ^ 1023) as -> by (by rewrite <- Z.pow_succ_r).
  nia.
Qed.

Lemma py_truediv_finite a b :
  Z.abs a < 2 ^ 1023 -> b <> 0 -> exists x, py_truediv a b = Ok x.
Proof.
  intros Ha Hb. unfold py_truediv.
  destruct (Z.eqb_spec b 0) as [?|_]; [done|].
  destruct (Z.eqb_spec a 0) as [?|Ha0]; [by eexists|].
  rewrite round_binary64_finite by lia. by eexists.
Qed.

(** An array length divided by a sample rate that is not 0. *)
Lemma py_truediv_length a b :
  0 <= a < 2 ^ 63 -> b <> 0 -> exists x, py_truediv a b = Ok x.
Proof.
  intros Ha Hb. apply py_truediv_finite; [|done].
  assert (2 ^ 63 < 2 ^ 1023) by (apply Z.pow_lt_mono_r; lia). lia.
Qed.

Lemma int_str_limit_eq : int_str_limit = 10 ^ int_max_str_digits.
Proof. vm_compute. reflexivity. Qed.

Lemma py_str_int_ok n :
  Z.abs n < 10 ^ int_max_str_digits -> py_str_int n = Ok ().
Proof.
  intros Hn. unfold py_str_int. rewrite int_str_limit_eq.
  by rewrite (proj2 (Z.leb_gt _ _) Hn).
Qed.

Lemma py_str_int_inv n :
  py_str_int n = Ok () -> Z.abs n < 10 ^ int_max_str_digits.
Proof.
  unfold py_str_int. rewrite int_str_limit_eq.
  by destruct (Z.leb_spec (10 ^ int_max_str_digits) (Z.abs n)).
Qed.

(** A 64-bit integer has far fewer than 4300 digits. *)
Lemma int64_lt_limit n : n < 2 ^ 63 -> n < 10 ^ int_max_str_digits.
Proof.
  intros Hn. apply (Z.lt_trans _ (10 ^ 63)).
  - apply (Z.lt_trans _ _ _ Hn). apply Z.pow_lt_mono_l; lia.
  - apply Z.pow_lt_mono_r; unfold int_max_str_digits; lia.
Qed.

Lemma py_str_int_int64 n : Z.abs n < 2 ^ 63 -> py_str_int n = Ok ().
Proof. intros Hn. by apply py_str_int_ok, int64_lt_limit. Qed.

(** ** Slices, padding and the clip sequence *)

Lemma py_range_nat n : py_range n = Z.of_nat <$> seq 0 (Z.to_nat n).
Proof.
  unfold py_range, seqZ. apply list_fmap_ext. intros _ j _. lia.
Qed.

Lemma tqdm_range_ok n : n < 2 ^ 63 -> tqdm_range n = Ok (py_range n).
Proof.
  intros Hn. unfold tqdm_range.
  by destruct (Z.leb_spec (2 ^ 63) n); [lia|].
Qed.

Lemma tqdm_range_inv n l :
  tqdm_range n = Ok l -> n < 2 ^ 63 /\ l = py_range n.
Proof.
  unfold tqdm_range.
  destruct (Z.leb_spec (2 ^ 63) n); [done|]. by intros [= <-].
Qed.

Lemma fits_int64_true n : - 2 ^ 63 <= n < 2 ^ 63 -> fits_int64 n = true.
Proof.
  intros Hn. unfold fits_int64. apply andb_true_iff.
  split; [apply Z.leb_le|apply Z.ltb_lt]; lia.
Qed.

(** Padding behind the array only, by a width that is a 64-bit integer. *)
Lemma np_pad_after {A} alloc_error (a : list A) after c :
  0 <= after < 2 ^ 63 ->
  np_pad alloc_error a 0 after c
  = match alloc_error (Z.of_nat (length a) + after) with
    | Some e => Raise e
    | None => Ok (a ++ replicate (Z.to_nat after) c)
    end.
Proof.
  intros Hafter. unfold np_pad.
  rewrite (fits_int64_true 0) by (by vm_compute).
  rewrite (fits_int64_true after)
    by (assert (0 < 2 ^ 63) by (by vm_compute); lia).
  rewrite (proj2 (Z.ltb_ge after 0)) by lia. cbn [andb negb orb Z.ltb Z.compare].
  by rewrite Z.add_0_l.
Qed.

Section ClipFacts.
Context {sample : Type} (zero : sample).
Variable alloc_error : Z -> option exception.
Implicit Types (audio_data : list sample) (s i : Z).

(** Inside the loop the slice bounds are never negative, and the slice
    is the run of [s] samples from offset [i * s], cut at the end of the
    buffer. *)
Lemma raw_clip_take_drop audio_data s i :
  0 < s -> 0 <= i ->
  raw_clip audio_data s i
  = take (Z.to_nat s) (drop (Z.to_nat (i * s)) audio_data).
Proof.
  intros Hs Hi.
  unfold raw_clip, np_slice, start_sample, end_sample, total_samples,
    slice_index.
  set (L := Z.of_nat (length audio_data)).
  assert (0 <= L) by lia. assert (0 <= i * s) by nia.
  destruct (Z.ltb_spec (i * s) 0) as [?|_]; [lia|].
  destruct (Z.ltb_spec (Z.min ((i + 1) * s) L) 0) as [?|_]; [lia|].
  destruct (Z.le_gt_cases L (i * s)) as [Hge|Hlt].
  - rewrite !drop_ge by lia. by rewrite !take_nil.
  - rewrite (Z.min_l (i * s) L) by lia.
    set (rest := drop (Z.to_nat (i * s)) audio_data).
    assert (Hrest : length rest = Z.to_nat (L - i * s))
      by (subst rest; rewrite length_drop; lia).
    destruct (Z.le_gt_cases ((i + 1) * s) L).
    + f_equal. lia.
    + rewrite !take_ge; [done|lia|lia].
Qed.

(** What [clip_data] returns is the padded slice, whenever it returns
    ... *)
Lemma clip_data_inv audio_data s i d :
  clip_data zero alloc_error audio_data s i = Ok d ->
  d = padded_clip zero audio_data s i.
Proof.
  unfold clip_data, padded_clip, np_pad.
  destruct (Z.ltb_spec (Z.of_nat (length (raw_clip audio_data s i))) s)
    as [Hlt|Hge].
  - repeat case_match; try done. by intros [= <-].
  - intros [= <-].
    replace (Z.to_nat (s - Z.of_nat (length (raw_clip audio_data s i))))
      with 0%nat by lia.
    by rewrite app_nil_r.
Qed.

(** ... and it returns when the clip length is a 64-bit integer and an
    array of that length can be had. *)
Lemma clip_data_ok audio_data s i :
  s < 2 ^ 63 -> alloc_error s = None ->
  clip_data zero alloc_error audio_data s i
  = Ok (padded_clip zero audio_data s i).
Proof.
  intros Hs Halloc.
  destruct (clip_data zero alloc_error audio_data s i) as [d|e] eqn:Hd.
  { by apply clip_data_inv in Hd as ->. }
  exfalso. revert Hd. unfold clip_data.
  remember (raw_clip audio_data s i) as raw eqn:Hraw.
  destruct (Z.ltb_spec (Z.of_nat (length raw)) s) as [Hlt|Hge]; [|done].
  rewrite np_pad_after by lia.
  replace (Z.of_nat (length raw) + (s - Z.of_nat (length raw)))
    with s by lia.
  by rewrite Halloc.
Qed.

Lemma padded_clip_take_drop audio_data s i :
  0 < s -> 0 <= i ->
  let raw := take (Z.to_nat s) (drop (Z.to_nat (i * s)) audio_data) in
  padded_clip zero audio_data s i
  = raw ++ replicate (Z.to_nat s - length raw) zero.
Proof.
  intros Hs Hi raw. unfold padded_clip.
  rewrite raw_clip_take_drop by done. fold raw. do 2 f_equal. lia.
Qed.

Lemma padded_clip_length audio_data s i :
  0 < s -> 0 <= i ->
  Z.of_nat (length (padded_clip zero audio_data s i)) = s.
Proof.
  intros Hs Hi. rewrite padded_clip_take_drop by done. cbn zeta.
  rewrite length_app, length_replicate, length_take. lia.
Qed.

Lemma mapM_clip_data_inv audio_data s (l : list Z) : forall ds,
  mapM (clip_data zero alloc_error audio_data s) l = Ok ds ->
  ds = padded_clip zero audio_data s <$> l.
Proof.
  induction l as [|i l IH]; intros ds; cbn [mapM].
  - by intros [= <-].
  - destruct (clip_data zero alloc_error audio_data s i) as [d|e] eqn:Hd;
      [|done].
    cbn [mbind result_bind].
    destruct (mapM _ l) as [ds'|e]; [|done].
    cbn [mbind result_bind mret result_ret]. intros [= <-].
    apply clip_data_inv in Hd as ->. by rewrite (IH ds').
Qed.

Lemma mapM_clip_data_ok audio_data s (l : list Z) :
  s < 2 ^ 63 -> alloc_error s = None ->
  mapM (clip_data zero alloc_error audio_data s) l
  = Ok (padded_clip zero audio_data s <$> l).
Proof.
  intros Hs Halloc. induction l as [|i l IH]; [done|].
  cbn [mapM]. rewrite clip_data_ok, IH by done. done.
Qed.

(** The clips of a run that returns them, in loop order. *)
Lemma clips_inv audio_data clip_duration sample_rate cs :
  clips zero alloc_error audio_data clip_duration sample_rate = Ok cs ->
  exists n,
    num_clips (total_samples audio_data)
      (samples_per_clip clip_duration sample_rate) = Ok n /\
    n < 2 ^ 63 /\
    cs = padded_clip zero audio_data
           (samples_per_clip clip_duration sample_rate) <$> py_range n.
Proof.
  unfold clips. destruct (num_clips _ _) as [n|e]; [|done].
  cbn [mbind result_bind].
  destruct (tqdm_range n) as [l|e] eqn:Hl; [|done].
  apply tqdm_range_inv in Hl as [Hn ->].
  cbn [mbind result_bind]. intros ->%mapM_clip_data_inv.
  by exists n.
Qed.


(** The clips are returned when the clip count is, for a clip length
    that is a 64-bit integer and an array that can be had. *)
Lemma clips_ok audio_data clip_duration sample_rate n :
  num_clips (total_samples audio_data)
    (samples_per_clip clip_duration sample_rate) = Ok n ->
  n < 2 ^ 63 ->
  samples_per_clip clip_duration sample_rate < 2 ^ 63 ->
  alloc_error (samples_per_clip clip_duration sample_rate) = None ->
  clips zero alloc_error audio_data clip_duration sample_rate
  = Ok (padded_clip zero audio_data
          (samples_per_clip clip_duration sample_rate) <$> py_range n).
Proof.
  intros Hn Hn63 Hs Halloc. unfold clips. rewrite Hn.
  cbn [mbind result_bind]. rewrite tqdm_range_ok by done.
  cbn [mbind result_bind]. by apply mapM_clip_data_ok.
Qed.

(** Enough chunks of [k] samples, each padded to [k], rebuild the
    buffer in their first [length audio_data] samples. *)
Lemma concat_chunks (k : nat) :
  (0 < k)%nat -> forall (n : nat) audio_data,
  (length audio_data <= n * k)%nat ->
  take (length audio_data)
    (concat ((fun j : nat =>
                let raw := take k (drop (j * k) audio_data) in
                raw ++ replicate (k - length raw) zero) <$> seq 0 n))
  = audio_data.
Proof.
  intros Hk. induction n as [|n IH]; intros audio_data Hlen.
  - destruct audio_data; [done|cbn in Hlen; lia].
  - cbn [seq fmap list_fmap concat]. rewrite <- fmap_S_seq.
    rewrite <- list_fmap_compose. cbn [Nat.mul]. rewrite drop_0.
    destruct (Nat.le_gt_cases k (length audio_data)) as [Hfull|Hshort].
    + assert (Hraw : length (take k audio_data) = k)
        by (rewrite length_take; lia).
      rewrite Hraw, Nat.sub_diag. cbn [replicate]. rewrite app_nil_r.
      rewrite take_app_ge by lia. rewrite Hraw.
      transitivity (take k audio_data ++ drop k audio_data);
        [|apply take_drop]. f_equal.
      erewrite list_fmap_ext.
      * replace (length audio_data - k)%nat
          with (length (drop k audio_data)) by (rewrite length_drop; lia).
        apply IH. rewrite length_drop. lia.
      * intros _ j _. cbn. by rewrite !drop_drop.
    + rewrite (take_ge audio_data k) by lia.
      rewrite <- app_assoc. by rewrite take_app_length.
Qed.
End ClipFacts.

(** ** Strings and decimal digits *)

Lemma string_app_cons c (a b : string) :
  String c a +:+ b = String c (a +:+ b).
Proof. done. Qed.

Lemma string_app_nil_r (s : string) : s +:+ "" = s.
Proof.
  induction s as [|c s IH]; [done|]. by rewrite string_app_cons, IH.
Qed.

Lemma string_app_assoc (a b c : string) : (a +:+ b) +:+ c = a +:+ b +:+ c.
Proof.
  induction a as [|x a IH]; [done|]. by rewrite !string_app_cons, IH.
Qed.

Lemma string_app_length (a b : string) :
  String.length (a +:+ b) = (String.length a + String.length b)%nat.
Proof.
  induction a as [|x a IH]; [done|]. rewrite string_app_cons. cbn.
  by rewrite IH.
Qed.

Lemma string_app_inv_tail (a b t : string) : a +:+ t = b +:+ t -> a = b.
Proof.
  revert b. induction a as [|x a IH]; intros [|y b] H; [done| | |].
  - apply (f_equal String.length) in H.
    rewrite !string_app_length in H. cbn in H. lia.
  - apply (f_equal String.length) in H.
    rewrite !string_app_length in H. cbn in H. lia.
  - rewrite !string_app_cons in H. injection H as -> H. f_equal.
    by apply IH.
Qed.

Lemma contains_app c (a b : string) :
  contains c (a +:+ b) = contains c a || contains c b.
Proof.
  induction a as [|x a IH]; [done|]. rewrite string_app_cons. cbn.
  rewrite IH. by rewrite orb_assoc.
Qed.

Lemma contains_replicate c d n :
  d <> c -> contains c (string_replicate n d) = false.
Proof.
  intros Hne. induction n as [|n IH]; [done|]. cbn. rewrite IH.
  rewrite orb_false_r. by apply Ascii.eqb_neq.
Qed.

Lemma string_replicate_length n c :
  String.length (string_replicate n c) = n.
Proof. induction n as [|n IH]; [done|]. cbn. by rewrite IH. Qed.

Lemma is_digits_app (a b : string) :
  is_digits (a +:+ b) = is_digits a && is_digits b.
Proof.
  induction a as [|x a IH]; [done|]. rewrite string_app_cons. cbn.
  rewrite IH. by rewrite andb_assoc.
Qed.

Lemma is_digits_contains c (s : string) :
  is_digit c = false -> is_digits s = true -> contains c s = false.
Proof.
  intros Hc. induction s as [|x s IH]; [done|]. cbn.
  intros [Hx Hs]%andb_true_iff. rewrite (IH Hs), orb_false_r.
  apply Ascii.eqb_neq. intros ->. congruence.
Qed.

Lemma decimal_value_from_app acc (a b : string) :
  decimal_value_from acc (a +:+ b)
  = decimal_value_from (decimal_value_from acc a) b.
Proof.
  revert acc. induction a as [|x a IH]; intros acc; [done|].
  rewrite string_app_cons. apply IH.
Qed.

Lemma decimal_value_zeros n (s : string) :
  decimal_value (string_replicate n "0" +:+ s) = decimal_value s.
Proof. induction n as [|n IH]; [done|]. exact IH. Qed.

(** *** The digits [pretty] prints *)

Lemma pretty_N_char_digit d :
  (d < 10)%N ->
  is_digit (pretty_N_char d) = true
  /\ (Ascii.N_of_ascii (pretty_N_char d) - 48)%N = d
  /\ (d <> 0%N -> pretty_N_char d <> "0"%char).
Proof.
  intros Hd.
  assert (d = 0 \/ d = 1 \/ d = 2 \/ d = 3 \/ d = 4 \/ d = 5 \/ d = 6
          \/ d = 7 \/ d = 8 \/ d = 9)%N as Hcases by lia.
  repeat (destruct Hcases as [->|Hcases]); try subst d; by cbn.
Qed.

Lemma pretty_N_go_app x (s : string) :
  pretty_N_go x s = pretty_N_go x "" +:+ s.
Proof.
  revert s. induction (N.lt_wf_0 x) as [x _ IH]; intros s.
  destruct (N.eq_0_gt_0_cases x) as [->|Hx]; [done|].
  rewrite (pretty_N_go_step x s), (pretty_N_go_step x "") by done.
  assert (Hlt : (x `div` 10 < x)%N) by (by apply N.div_lt).
  rewrite (IH _ Hlt (String _ s)), (IH _ Hlt (String _ "")).
  by rewrite string_app_assoc.
Qed.

Lemma pretty_N_go_digits x :
  is_digits (pretty_N_go x "") = true
  /\ decimal_value (pretty_N_go x "") = x
  /\ (x <> 0%N -> exists c rest,
        pretty_N_go x "" = String c rest /\ c <> "0"%char).
Proof.
  induction (N.lt_wf_0 x) as [x _ IH].
  destruct (N.eq_0_gt_0_cases x) as [->|Hx]; [done|].
  rewrite pretty_N_go_step by done. rewrite pretty_N_go_app.
  destruct (IH (x `div` 10)%N) as (Hd & Hv & Hlead); [by apply N.div_lt|].
  destruct (pretty_N_char_digit (x `mod` 10)%N) as (Hcd & Hcv & Hc0);
    [by apply N.mod_lt|].
  split; [|split].
  - rewrite is_digits_app, Hd. cbn. by rewrite Hcd.
  - unfold decimal_value in *. rewrite decimal_value_from_app, Hv. cbn.
    rewrite Hcv. pose proof (N.div_mod x 10). lia.
  - intros _. destruct (N.eq_0_gt_0_cases (x `div` 10)) as [H0|Hpos].
    + rewrite H0. cbn. eexists _, _. split; [done|]. apply Hc0.
      intros Hm. pose proof (N.div_mod x 10). lia.
    + destruct Hlead as (c & rest & -> & Hc); [lia|].
      cbn. by eexists _, _.
Qed.

(** [f"{n:03d}"] of a number that is not negative is that number
    zero-padded to three digits. *)
Lemma format_03d_zero_padded n :
  0 <= n -> zero_padded 3 (Z.to_N n) (format_03d n).
Proof.
  intros Hn. unfold format_03d.
  destruct (Z.ltb_spec n 0) as [?|_]; [lia|].
  set (x := Z.to_N n). unfold zfill.
  assert (Hp : is_digits (pretty x) = true /\ decimal_value (pretty x) = x
               /\ (forall rest, (1 < String.length (pretty x))%nat ->
                     pretty x <> String "0" rest)).
  { unfold pretty, pretty_N. case_decide as Hx0.
    { rewrite Hx0. repeat split; try done. intros rest Hlen.
      cbn in Hlen. lia. }
    destruct (pretty_N_go_digits x) as (Hd & Hv & Hlead).
    split; [done|]. split; [done|]. intros rest _.
    destruct (Hlead Hx0) as (c & rest' & -> & Hc). congruence. }
  destruct Hp as (Hd & Hv & Hlead). repeat split.
  - rewrite is_digits_app, Hd, andb_true_r. clear.
    induction (3 - _)%nat as [|k IH]; [done|]. exact IH.
  - by rewrite decimal_value_zeros.
  - rewrite string_app_length, string_replicate_length. lia.
  - rewrite string_app_length, string_replicate_length. intros Hlen rest.
    replace (3 - String.length (pretty x))%nat with 0%nat by lia.
    cbn [string_replicate]. apply Hlead. lia.
Qed.

Lemma format_03d_inj a b :
  0 <= a -> 0 <= b -> format_03d a = format_03d b -> a = b.
Proof.
  intros Ha Hb Heq.
  destruct (format_03d_zero_padded a Ha) as (_ & Hva & _).
  destruct (format_03d_zero_padded b Hb) as (_ & Hvb & _).
  rewrite Heq in Hva. lia.
Qed.

(** ** Paths *)

Lemma split_no_sep sep (s : string) :
  contains sep s = false -> split sep s = [s].
Proof.
  induction s as [|c s IH]; [done|]. cbn.
  intros [Hc Hs]%orb_false_iff. rewrite Hc. by rewrite (IH Hs).
Qed.

Lemma split_parts_no_sep sep (s : string) :
  Forall (fun x => contains sep x = false) (split sep s).
Proof.
  induction s as [|c s IH]; [by repeat constructor|]. cbn.
  destruct (Ascii.eqb c sep) eqn:Hc; [by constructor|].
  destruct (split sep s) as [|w ws].
  - constructor; [|done]. cbn. by rewrite Hc.
  - inversion_clear IH as [|? ? Hw Hws]. constructor; [|done].
    cbn. by rewrite Hc, Hw.
Qed.

Lemma substring_contains c n m (s : string) :
  contains c s = false -> contains c (String.substring n m s) = false.
Proof.
  revert n m. induction s as [|x s IH]; intros n m Hs.
  { by destruct n, m. }
  cbn in Hs. apply orb_false_iff in Hs as [Hx Hs].
  destruct n as [|n]; [destruct m as [|m]|]; cbn; [done| |by apply IH].
  rewrite Hx. by apply IH.
Qed.

(** A single component that is neither empty nor ["."] parses to itself. *)
Lemma Path_single (t : string) :
  contains "/" t = false -> t <> "" -> t <> "." ->
  Path t = {| root := ""; tail := [t] |}.
Proof.
  intros Hs Hne Hdot. unfold Path.
  assert (splitroot t = ("", t)) as ->.
  { destruct t as [|c t]; [done|]. cbn in Hs.
    apply orb_false_iff in Hs as [Hc _]. unfold splitroot. by rewrite Hc. }
  rewrite (split_no_sep _ _ Hs). cbn.
  by rewrite decide_True by done.
Qed.

Lemma Path_tail_no_slash (s : string) :
  Forall (fun x => contains "/" x = false) (tail (Path s)).
Proof.
  unfold Path. destruct (splitroot s) as [r rel]. cbn [tail].
  apply Forall_forall. intros x [_ Hx]%list_elem_of_filter.
  by apply (proj1 (Forall_forall _ _) (split_parts_no_sep "/" rel)).
Qed.

Lemma stem_no_slash (s : string) : contains "/" (stem (Path s)) = false.
Proof.
  assert (Hname : contains "/" (name (Path s)) = false).
  { unfold name. pose proof (Path_tail_no_slash s) as Ht.
    induction Ht as [|x [|y l] Hx Hl IH]; [done|done|exact IH]. }
  unfold stem. destruct (rfind _ _) as [i|]; [|done].
  case_match; [|done]. by apply substring_contains.
Qed.

Lemma clip_filename_component (base : string) i :
  contains "/" base = false -> 0 <= i + 1 ->
  contains "/" (clip_filename base i) = false
  /\ clip_filename base i <> "" /\ clip_filename base i <> ".".
Proof.
  intros Hbase Hi. unfold clip_filename.
  destruct (format_03d_zero_padded (i + 1) Hi) as (Hd & _).
  split; [|split].
  - rewrite !contains_app, Hbase.
    by rewrite (is_digits_contains "/" (format_03d (i + 1))).
  - intros H%(f_equal String.length).
    rewrite !string_app_length in H. cbn in H. lia.
  - intros H%(f_equal String.length).
    rewrite !string_app_length in H. cbn in H. lia.
Qed.

(** The clip's path is the output directory with one more component,
    the clip's file name. *)
Lemma clip_path_tail (out : PurePath) (base : string) i :
  contains "/" base = false -> 0 <= i + 1 ->
  clip_path out base i
  = {| root := root out; tail := tail out ++ [clip_filename base i] |}.
Proof.
  intros Hbase Hi. unfold clip_path, truediv.
  destruct (clip_filename_component base i Hbase Hi) as (Hs & Hne & Hdot).
  by rewrite (Path_single _ Hs Hne Hdot).
Qed.

Lemma concat_snoc sep (t : list string) :
  exists pre, forall x, String.concat sep (t ++ [x]) = pre +:+ x.
Proof.
  induction t as [|a t [pre IH]]; [by exists ""|].
  exists (a +:+ sep +:+ pre). intros x. cbn [app String.concat].
  destruct (t ++ [x]) as [|y l] eqn:Hl; [by destruct t|].
  rewrite <- Hl, IH. by rewrite !string_app_assoc.
Qed.

Lemma path_str_snoc_inj r (t : list string) (x y : string) :
  path_str {| root := r; tail := t ++ [x] |}
  = path_str {| root := r; tail := t ++ [y] |} -> x = y.
Proof.
  destruct (concat_snoc "/" t) as [pre Hpre].
  assert (Hstr : forall z, path_str {| root := r; tail := t ++ [z] |}
                           = r +:+ pre +:+ z).
  { intros z. unfold path_str. cbn [root tail]. rewrite <- Hpre.
    destruct r; [|done]. by destruct (t ++ [z]) eqn:Hl; [destruct t|]. }
  rewrite !Hstr. intros H. by do 2 apply String.app_inj in H.
Qed.

(** Distinct clip indices have distinct paths. *)
Lemma clip_path_inj (out : PurePath) (base : string) i j :
  contains "/" base = false -> 0 <= i -> 0 <= j ->
  path_str (clip_path out base i) = path_str (clip_path out base j) ->
  i = j.
Proof.
  intros Hbase Hi Hj. rewrite !clip_path_tail by (done || lia).
  intros H%path_str_snoc_inj. unfold clip_filename in H.
  do 2 apply String.app_inj in H. apply string_app_inv_tail in H.
  apply format_03d_inj in H; lia.
Qed.


(** The stem and the suffix are the two parts of the name. *)
Lemma substring_all (s : string) : String.substring 0 (String.length s) s = s.
Proof. induction s as [|c s IH]; [done|]. cbn. by rewrite IH. Qed.

Lemma substring_split (s : string) : forall i,
  (i <= String.length s)%nat ->
  String.substring 0 i s +:+ String.substring i (String.length s - i) s = s.
Proof.
  induction s as [|c s IH]; intros [|i] Hi; cbn in Hi |- *; try done; try lia.
  - by rewrite substring_all.
  - rewrite string_app_cons. f_equal. apply IH. lia.
Qed.

Lemma stem_suffix_name p : stem p +:+ suffix p = name p.
Proof.
  unfold stem, suffix. destruct (rfind "." (name p)) as [i|].
  - destruct ((0 <? i)%nat && (i <? String.length (name p) - 1)%nat)
      eqn:Hi.
    + apply substring_split.
      apply andb_true_iff in Hi as [_ Hi%Nat.ltb_lt]. lia.
    + apply string_app_nil_r.
  - apply string_app_nil_r.
Qed.

(** ** Running the orchestrator *)

Section Runs.
Context {sample : Type} (zero : sample) (env : @Env sample).
Implicit Types (w : @World sample) (audio_data : list sample).

Lemma bind_ok {A B} (m : M A) (f : A -> M B) w a w' :
  m w = (Ok a, w') -> (m ≫= f) w = f a w'.
Proof. intros H. unfold mbind, M_bind. by rewrite H. Qed.

Lemma bind_raise {A B} (m : M A) (f : A -> M B) w e w' :
  m w = (Raise e, w') -> (m ≫= f) w = (Raise e, w').
Proof. intros H. unfold mbind, M_bind. by rewrite H. Qed.

Lemma Path_exists_ok p w :
  stat_error env (path_str p) = None ->
  Path_exists env p w
  = (Ok (present w (path_str p)), record_call w (CallExists (path_str p))).
Proof.
  intros Hstat. unfold Path_exists.
  erewrite bind_ok by reflexivity. by rewrite Hstat.
Qed.

Lemma Path_exists_raise p w e :
  stat_error env (path_str p) = Some e ->
  Path_exists env p w = (Raise e, record_call w (CallExists (path_str p))).
Proof.
  intros Hstat. unfold Path_exists.
  erewrite bind_ok by reflexivity. by rewrite Hstat.
Qed.

Lemma present_true w path :
  is_Some (files w !! path) \/ path ∈ dirs w -> present w path = true.
Proof.
  intros H. apply orb_true_iff.
  destruct H; [left|right]; by apply bool_decide_eq_true.
Qed.

Lemma present_true_inv w path :
  present w path = true -> is_Some (files w !! path) \/ path ∈ dirs w.
Proof.
  intros [H|H]%orb_true_iff; [left|right]; by apply bool_decide_eq_true in H.
Qed.

Lemma present_false w path :
  files w !! path = None -> path ∉ dirs w -> present w path = false.
Proof.
  intros Hfile Hdir. unfold present.
  rewrite bool_decide_eq_false_2 by (rewrite Hfile; by intros [? ?]).
  by rewrite bool_decide_eq_false_2 by done.
Qed.

Lemma Path_mkdir_ok p w :
  mkdir_error env (path_str p) = None ->
  Forall (fun q => files w !! path_str q = None) (lineage p) ->
  Path_mkdir env p w
  = (Ok (), {| files := files w;
               dirs := dirs w ∪ list_to_set (path_str <$> lineage p);
               trace := trace w ++ [CallMkdir (path_str p)] |}).
Proof.
  intros Hos Hfree. unfold Path_mkdir.
  erewrite bind_ok by reflexivity. rewrite Hos.
  erewrite bind_ok by reflexivity.
  cbn [files record_call].
  destruct (list_find _ _) as [[j q]|] eqn:Hfind; [|done].
  apply list_find_Some in Hfind as (Hq & [x Hx] & _).
  apply list_lookup_fmap_Some in Hq as (p' & -> & Hp').
  rewrite Forall_lookup in Hfree. specialize (Hfree _ _ Hp').
  cbn in Hx. congruence.
Qed.

(** [mkdir] either goes through or raises having changed nothing. *)
Lemma Path_mkdir_cases p w :
  (mkdir_error env (path_str p) = None
   /\ Forall (fun q => files w !! path_str q = None) (lineage p))
  \/ exists e,
       Path_mkdir env p w
       = (Raise e, record_call w (CallMkdir (path_str p))).
Proof.
  unfold Path_mkdir.
  erewrite bind_ok by reflexivity.
  destruct (mkdir_error env (path_str p)) as [e|] eqn:Hos.
  { right. by exists e. }
  erewrite bind_ok by reflexivity.
  cbn [files record_call].
  destruct (list_find _ _) as [[j q]|] eqn:Hfind.
  - right. by eexists.
  - left. split; [done|]. apply Forall_forall. intros q Hq.
    rewrite list_find_None in Hfind.
    rewrite Forall_forall in Hfind.
    specialize (Hfind (path_str q)).
    destruct (files w !! path_str q) eqn:Hl; [|done].
    exfalso. apply Hfind; [|by eexists].
    apply list_elem_of_fmap. by exists q.
Qed.

Lemma librosa_load_ok path sr w audio_data :
  decode env (files w) path sr = Ok audio_data ->
  librosa_load env path sr w
  = (Ok (audio_data, sr), record_call w (CallLoad path sr)).
Proof.
  intros Hd. unfold librosa_load.
  erewrite bind_ok by reflexivity. erewrite bind_ok by reflexivity.
  cbn [files record_call]. by rewrite Hd.
Qed.

Lemma librosa_load_raise path sr w e :
  decode env (files w) path sr = Raise e ->
  librosa_load env path sr w
  = (Raise e, record_call w (CallLoad path sr)).
Proof.
  intros Hd. unfold librosa_load.
  erewrite bind_ok by reflexivity. erewrite bind_ok by reflexivity.
  cbn [files record_call]. by rewrite Hd.
Qed.

Lemma sf_write_ok path data sr w :
  encode_error env (files w) path data sr = None ->
  sf_write env path data sr w
  = (Ok (), {| files := <[path := Wav data sr]> (files w);
               dirs := dirs w;
               trace := trace w ++ [CallWrite path data sr] |}).
Proof.
  intros He. unfold sf_write.
  erewrite bind_ok by reflexivity. erewrite bind_ok by reflexivity.
  cbn [files record_call]. by rewrite He.
Qed.

Lemma sf_write_raise path data sr w e :
  encode_error env (files w) path data sr = Some e ->
  sf_write env path data sr w
  = (Raise e, record_call w (CallWrite path data sr)).
Proof.
  intros He. unfold sf_write.
  erewrite bind_ok by reflexivity. erewrite bind_ok by reflexivity.
  cbn [files record_call]. by rewrite He.
Qed.

(** *** Between the decoder and the loop *)

Lemma plan_clips_ok audio_data clip_duration sample_rate n :
  total_samples audio_data < 2 ^ 63 ->
  sample_rate <> 0 ->
  Z.abs sample_rate < 10 ^ int_max_str_digits ->
  Z.abs clip_duration < 10 ^ int_max_str_digits ->
  num_clips (total_samples audio_data)
    (samples_per_clip clip_duration sample_rate) = Ok n ->
  Z.abs n < 2 ^ 63 ->
  plan_clips audio_data clip_duration sample_rate sample_rate
  = Ok (py_range n).
Proof.
  intros HL Hsr0 Hsr Hcd Hn Hn63. unfold plan_clips.
  assert (0 <= total_samples audio_data) by (unfold total_samples; lia).
  rewrite (py_str_int_ok sample_rate) by done.
  cbn [mbind result_bind].
  destruct (py_truediv_length (total_samples audio_data) sample_rate)
    as [x ->]; [lia|done|].
  cbn [mbind result_bind].
  rewrite (py_str_int_int64 (total_samples audio_data)) by lia.
  cbn [mbind result_bind]. rewrite Hn. cbn [mbind result_bind].
  rewrite (py_str_int_int64 n) by done. cbn [mbind result_bind].
  rewrite (py_str_int_ok clip_duration) by done. cbn [mbind result_bind].
  apply tqdm_range_ok. lia.
Qed.

Lemma plan_clips_inv audio_data clip_duration sample_rate orig_sr l :
  plan_clips audio_data clip_duration sample_rate orig_sr = Ok l ->
  exists n,
    num_clips (total_samples audio_data)
      (samples_per_clip clip_duration sample_rate) = Ok n /\
    n < 2 ^ 63 /\ l = py_range n.
Proof.
  unfold plan_clips.
  destruct (py_str_int orig_sr); [|done]. cbn [mbind result_bind].
  destruct (py_str_int sample_rate); [|done]. cbn [mbind result_bind].
  destruct (py_truediv _ sample_rate); [|done]. cbn [mbind result_bind].
  destruct (py_str_int (total_samples _)); [|done]. cbn [mbind result_bind].
  destruct (num_clips _ _) as [n|]; [|done]. cbn [mbind result_bind].
  destruct (py_str_int n); [|done]. cbn [mbind result_bind].
  destruct (py_str_int clip_duration); [|done]. cbn [mbind result_bind].
  intros [Hn ->]%tqdm_range_inv. by exists n.
Qed.

(** The run up to the loop, for an input that is accepted, a directory
    that can be made and a file that is decoded. *)
Lemma convert_after_load input_file output_dir clip_duration sample_rate
    w audio_data :
  valid_input env input_file w ->
  mkdir_free env output_dir w ->
  decode env (files w) input_file sample_rate = Ok audio_data ->
  convert_mp3_to_wav_clips zero env input_file output_dir clip_duration
    sample_rate w
  = (indices ← lift (plan_clips audio_data clip_duration sample_rate
                       sample_rate);
     write_clips zero env audio_data
       (samples_per_clip clip_duration sample_rate)
       (stem (Path input_file)) (Path output_dir) sample_rate indices [])
      (loaded input_file output_dir sample_rate w).
Proof.
  intros (Hstat & Hex & Hsfx) [Hos Hfree] Hdec.
  unfold convert_mp3_to_wav_clips.
  erewrite bind_ok by (by apply Path_exists_ok).
  rewrite present_true by done.
  cbn [negb]. rewrite Hsfx.
  rewrite bool_decide_eq_true_2 by (apply list_elem_of_singleton; done).
  cbn [negb].
  erewrite bind_ok; [|by apply Path_mkdir_ok].
  erewrite bind_ok; [|by apply librosa_load_ok].
  cbn beta iota.
  f_equal. unfold loaded, record_call. cbn [files dirs trace].
  f_equal. by rewrite <- !app_assoc.
Qed.

Lemma convert_reaches_loop input_file output_dir clip_duration sample_rate
    w audio_data n :
  reaches_loop env input_file output_dir clip_duration sample_rate w
    audio_data n ->
  convert_mp3_to_wav_clips zero env input_file output_dir clip_duration
    sample_rate w
  = write_clips zero env audio_data
      (samples_per_clip clip_duration sample_rate)
      (stem (Path input_file)) (Path output_dir) sample_rate
      (py_range n) [] (loaded input_file output_dir sample_rate w).
Proof.
  intros (Hv & Hfree & Hdec & HL & Hsr0 & Hsr & Hcd & Hn & Hn63).
  rewrite (convert_after_load _ _ _ _ _ _ Hv Hfree Hdec).
  erewrite bind_ok; [done|].
  unfold lift. by rewrite (plan_clips_ok _ _ _ n).
Qed.

(** With numbers of at most 64 bits the messages raise nothing. *)
Lemma reaches_loop_int64 input_file output_dir clip_duration sample_rate
    w audio_data n :
  valid_input env input_file w ->
  mkdir_free env output_dir w ->
  decode env (files w) input_file sample_rate = Ok audio_data ->
  total_samples audio_data < 2 ^ 63 ->
  sample_rate <> 0 ->
  Z.abs sample_rate < 2 ^ 63 ->
  Z.abs clip_duration < 2 ^ 63 ->
  num_clips (total_samples audio_data)
    (samples_per_clip clip_duration sample_rate) = Ok n ->
  Z.abs n < 2 ^ 63 ->
  reaches_loop env input_file output_dir clip_duration sample_rate w
    audio_data n.
Proof.
  intros Hv Hfree Hdec HL Hsr0 Hsr Hcd Hn Hn63.
  repeat (split; [done|]).
  split; [by apply int64_lt_limit|]. split; [by apply int64_lt_limit|].
  done.
Qed.

(** A run that returns has passed every check, and its last step is
    the loop. *)
Lemma convert_ok_inv input_file output_dir clip_duration sample_rate
    w created w' :
  convert_mp3_to_wav_clips zero env input_file output_dir clip_duration
    sample_rate w = (Ok created, w') ->
  exists audio_data n,
    valid_input env input_file w /\
    mkdir_free env output_dir w /\
    decode env (files w) input_file sample_rate = Ok audio_data /\
    num_clips (total_samples audio_data)
      (samples_per_clip clip_duration sample_rate) = Ok n /\
    n < 2 ^ 63 /\
    write_clips zero env audio_data
      (samples_per_clip clip_duration sample_rate)
      (stem (Path input_file)) (Path output_dir) sample_rate
      (py_range n) [] (loaded input_file output_dir sample_rate w)
    = (Ok created, w').
Proof.
  intros Hrun. pose proof Hrun as Hrun0. revert Hrun.
  unfold convert_mp3_to_wav_clips.
  destruct (stat_error env (path_str (Path input_file))) as [e|] eqn:Hstat.
  { erewrite bind_raise by (by apply Path_exists_raise). done. }
  erewrite bind_ok by (by apply Path_exists_ok).
  destruct (present w (path_str (Path input_file))) eqn:Hex;
    cbn [negb]; [|done].
  destruct (bool_decide (lower (suffix (Path input_file)) ∈ [".mp3"]))
    eqn:Hsfx; cbn [negb]; [|done].
  assert (Hvalid : valid_input env input_file w).
  { split; [done|]. split; [by apply present_true_inv|].
    apply bool_decide_eq_true in Hsfx.
    by apply list_elem_of_singleton in Hsfx. }
  destruct (Path_mkdir_cases (Path output_dir)
              (record_call w (CallExists (path_str (Path input_file)))))
    as [Hfree|[e He]].
  2:{ erewrite bind_raise by exact He. done. }
  destruct (decode env (files w) input_file sample_rate) as [audio_data|e]
    eqn:Hdec.
  2:{ erewrite bind_ok by (apply Path_mkdir_ok; apply Hfree).
      erewrite bind_raise; [done|]. by apply librosa_load_raise. }
  intros _.
  rewrite (convert_after_load _ _ _ _ _ _ Hvalid Hfree Hdec) in Hrun0.
  destruct (plan_clips audio_data clip_duration sample_rate sample_rate)
    as [l|e] eqn:Hplan.
  2:{ erewrite bind_raise in Hrun0; [done|]. unfold lift. by rewrite ?Hplan. }
  erewrite bind_ok in Hrun0 by (unfold lift; by rewrite ?Hplan).
  apply plan_clips_inv in Hplan as (n & Hn & Hn63 & ->).
  by exists audio_data, n.
Qed.

Lemma lineage_self p : p ∈ lineage p.
Proof.
  destruct p as [r t]. unfold lineage. cbn [tail root].
  destruct t as [|x t]; [by apply list_elem_of_here|].
  apply list_elem_of_fmap. exists (length (x :: t)). split.
  - by rewrite take_ge by done.
  - apply list_elem_of_lookup. exists (length t).
    apply lookup_seq. cbn. lia.
Qed.

Lemma written_data_app (t1 t2 : list (@event sample)) :
  written_data (t1 ++ t2) = written_data t1 ++ written_data t2.
Proof. apply omap_app. Qed.

Lemma written_data_write_calls audio_data spc base out sr (l : list Z) :
  written_data (write_call zero audio_data spc base out sr <$> l)
  = padded_clip zero audio_data spc <$> l.
Proof.
  induction l as [|i l IH]; [done|]. cbn. by rewrite <- IH.
Qed.

(** *** The loop *)
Section Loop.
Variables (audio_data : list sample) (spc : Z) (base : string)
  (out : PurePath) (sr : Z).

Let path (i : Z) : string := path_str (clip_path out base i).
Let clip := padded_clip zero audio_data spc.
Let store := store_clip zero audio_data spc base out sr.
Let wcall := write_call zero audio_data spc base out sr.
Let body := write_clip zero env audio_data spc base out sr.
Let loop := write_clips zero env audio_data spc base out sr.

(** One turn of the loop: the clip is made, or the turn raises with
    nothing done; the encoder is called, and raises with nothing
    stored or stores the clip; and the quotient of line 97 is taken. *)
Lemma write_clip_run i w :
  body i w
  = match clip_data zero (alloc_error env) audio_data spc i with
    | Raise e => (Raise e, w)
    | Ok data =>
        match encode_error env (files w) (path i) data sr with
        | Some e => (Raise e, record_call w (CallWrite (path i) data sr))
        | None =>
            let w1 := {| files := <[path i := Wav data sr]> (files w);
                         dirs := dirs w;
                         trace := trace w ++ [CallWrite (path i) data sr] |}
            in
            match py_truediv (Z.of_nat (length data)) sr with
            | Raise e => (Raise e, w1)
            | Ok _ => (Ok (path i), w1)
            end
        end
    end.
Proof.
  unfold body, write_clip.
  destruct (clip_data zero (alloc_error env) audio_data spc i) as [data|e];
    [|done].
  erewrite bind_ok by reflexivity. fold (path i).
  destruct (encode_error env (files w) (path i) data sr) as [e|] eqn:He.
  { erewrite bind_raise; [done|]. by apply sf_write_raise. }
  erewrite bind_ok by (by apply sf_write_ok).
  cbn zeta. by destruct (py_truediv _ sr).
Qed.

Lemma write_clips_cons i rest created w :
  loop (i :: rest) created w
  = (body i ≫= fun p => loop rest (created ++ [p])) w.
Proof. done. Qed.

(** A loop that returns has made every clip and handed it to the
    encoder, and nothing else. *)
Lemma write_clips_ok_data (indices : list Z) : forall created w created' w',
  loop indices created w = (Ok created', w') ->
  exists t,
    trace w' = trace w ++ t /\
    mapM (clip_data zero (alloc_error env) audio_data spc) indices
    = Ok (written_data t).
Proof.
  induction indices as [|i rest IH]; intros created w created' w'.
  - intros [= _ <-]. exists []. by rewrite app_nil_r.
  - rewrite write_clips_cons. unfold mbind at 1, M_bind.
    rewrite write_clip_run. cbn [mapM].
    destruct (clip_data zero (alloc_error env) audio_data spc i)
      as [data|e]; [|done].
    destruct (encode_error env (files w) (path i) data sr); [done|].
    cbn zeta. destruct (py_truediv _ sr); [|done].
    intros (t & Ht & Hm)%IH. cbn [trace] in Ht.
    exists (CallWrite (path i) data sr :: t). split.
    + by rewrite Ht, <- app_assoc.
    + cbn [mbind result_bind]. rewrite Hm. done.
Qed.

(** From here on the clip length is positive and a 64-bit integer,
    an array of that length can be had, and the sample rate is not
    0: a turn of the loop raises only what the encoder raises. *)
Hypothesis Hspc : 0 < spc < 2 ^ 63.
Hypothesis Halloc : alloc_error env spc = None.
Hypothesis Hsr : sr <> 0.

Lemma write_clip_ok i w :
  0 <= i ->
  encode_error env (files w) (path i) (clip i) sr = None ->
  body i w
  = (Ok (path i), {| files := store (files w) i;
                     dirs := dirs w;
                     trace := trace w ++ [wcall i] |}).
Proof.
  intros Hi He. rewrite write_clip_run.
  rewrite clip_data_ok by (done || lia). fold (clip i). rewrite He.
  cbn zeta.
  destruct (py_truediv_length (Z.of_nat (length (clip i))) sr)
    as [x ->]; [|done|done].
  unfold clip. rewrite padded_clip_length by (done || lia). lia.
Qed.

Lemma write_clip_raise i w e :
  encode_error env (files w) (path i) (clip i) sr = Some e ->
  body i w = (Raise e, record_call w (wcall i)).
Proof.
  intros He. rewrite write_clip_run.
  rewrite clip_data_ok by (done || lia). fold (clip i). by rewrite He.
Qed.

(** [k] iterations whose [sf.write] succeeds, from index [a] on. *)
Lemma write_clips_prefix (k : nat) : forall a m created w,
  0 <= a -> Z.of_nat k <= m ->
  (forall j : nat, (j < k)%nat ->
     encode_error env (foldl store (files w) (seqZ a (Z.of_nat j)))
       (path (a + Z.of_nat j)) (clip (a + Z.of_nat j)) sr = None) ->
  loop (seqZ a m) created w
  = loop (seqZ (a + Z.of_nat k) (m - Z.of_nat k))
      (created ++ (path <$> seqZ a (Z.of_nat k)))
      {| files := foldl store (files w) (seqZ a (Z.of_nat k));
         dirs := dirs w;
         trace := trace w ++ (wcall <$> seqZ a (Z.of_nat k)) |}.
Proof.
  induction k as [|k IH]; intros a m created w Ha Hm Hok.
  - change (Z.of_nat 0) with 0. rewrite Z.add_0_r, Z.sub_0_r.
    rewrite (seqZ_nil a 0) by lia. cbn [foldl fmap list_fmap].
    rewrite !app_nil_r. by destruct w.
  - rewrite (seqZ_cons a m) by lia. rewrite write_clips_cons.
    erewrite bind_ok.
    2:{ apply write_clip_ok; [done|]. specialize (Hok 0%nat ltac:(lia)).
        change (Z.of_nat 0) with 0 in Hok.
        rewrite (seqZ_nil a 0), Z.add_0_r in Hok by lia. exact Hok. }
    rewrite (IH (Z.succ a) (Z.pred m)); [|lia|lia|].
    + rewrite (seqZ_cons a (Z.of_nat (S k))) by lia.
      replace (Z.pred (Z.of_nat (S k))) with (Z.of_nat k) by lia.
      cbn [foldl fmap list_fmap files dirs trace].
      rewrite <- !app_assoc. cbn [app].
      do 2 f_equal; lia.
    + intros j Hj. specialize (Hok (S j) ltac:(lia)).
      rewrite (seqZ_cons a (Z.of_nat (S j))) in Hok by lia.
      replace (Z.pred (Z.of_nat (S j))) with (Z.of_nat j) in Hok by lia.
      replace (a + Z.of_nat (S j)) with (Z.succ a + Z.of_nat j) in Hok
        by lia.
      exact Hok.
Qed.

(** Every [sf.write] succeeds: the loop returns the paths in index
    order. *)
Lemma write_clips_complete n w :
  (forall j, 0 <= j < n ->
     encode_error env (foldl store (files w) (py_range j)) (path j)
       (clip j) sr = None) ->
  loop (py_range n) [] w
  = (Ok (path <$> py_range n),
     {| files := foldl store (files w) (py_range n);
        dirs := dirs w;
        trace := trace w ++ (wcall <$> py_range n) |}).
Proof.
  intros Hok. unfold py_range in *.
  destruct (Z.le_gt_cases n 0) as [Hn|Hn].
  { rewrite (seqZ_nil 0 n) by lia. cbn. rewrite app_nil_r.
    by destruct w. }
  rewrite (write_clips_prefix (Z.to_nat n) 0 n [] w); [|lia|lia|].
  - rewrite Z2Nat.id, Z.sub_diag by lia.
    rewrite (seqZ_nil _ 0) by lia. done.
  - intros j Hj. rewrite Z.add_0_l. apply Hok. lia.
Qed.

(** The first failing [sf.write] is that of clip [k]: the loop raises
    its exception after the call, with the clips before [k] stored. *)
Lemma write_clips_abort n k e w :
  0 <= k < n ->
  (forall j, 0 <= j < k ->
     encode_error env (foldl store (files w) (py_range j)) (path j)
       (clip j) sr = None) ->
  encode_error env (foldl store (files w) (py_range k)) (path k)
    (clip k) sr = Some e ->
  loop (py_range n) [] w
  = (Raise e,
     {| files := foldl store (files w) (py_range k);
        dirs := dirs w;
        trace := trace w ++ (wcall <$> py_range (k + 1)) |}).
Proof.
  intros Hk Hok Hfail. unfold py_range in *.
  rewrite (write_clips_prefix (Z.to_nat k) 0 n [] w); [|lia|lia|].
  - rewrite Z2Nat.id, Z.add_0_l by lia.
    rewrite (seqZ_cons k (n - k)) by lia. rewrite write_clips_cons.
    erewrite bind_raise; [|by apply write_clip_raise].
    unfold record_call. cbn [files dirs trace].
    rewrite (seqZ_app 0 k 1), fmap_app, app_assoc by lia. done.
  - intros j Hj. rewrite Z.add_0_l. apply Hok. lia.
Qed.

(** Whatever [sf.write] does, the loop stores the clips before some
    index [k] in order and then either is through or raises what the
    call for clip [k] raised. *)
Lemma write_clips_outcome n w :
  0 <= n ->
  exists k, 0 <= k <= n /\
    (forall j, 0 <= j < k ->
       encode_error env (foldl store (files w) (py_range j)) (path j)
         (clip j) sr = None) /\
    ((k = n /\
      loop (py_range n) [] w
      = (Ok (path <$> py_range n),
         {| files := foldl store (files w) (py_range n);
            dirs := dirs w;
            trace := trace w ++ (wcall <$> py_range n) |}))
     \/ (k < n /\ exists e,
           encode_error env (foldl store (files w) (py_range k)) (path k)
             (clip k) sr = Some e /\
           loop (py_range n) [] w
           = (Raise e,
              {| files := foldl store (files w) (py_range k);
                 dirs := dirs w;
                 trace := trace w ++ (wcall <$> py_range (k + 1)) |}))).
Proof.
  intros Hn.
  assert (Hgen : forall (d : nat) k, 0 <= k -> k + Z.of_nat d = n ->
    (forall j, 0 <= j < k ->
       encode_error env (foldl store (files w) (py_range j)) (path j)
         (clip j) sr = None) ->
    exists k', k <= k' <= n /\
      (forall j, 0 <= j < k' ->
         encode_error env (foldl store (files w) (py_range j)) (path j)
           (clip j) sr = None) /\
      (k' = n \/ (k' < n /\ exists e,
         encode_error env (foldl store (files w) (py_range k')) (path k')
           (clip k') sr = Some e))).
  { induction d as [|d IH]; intros k Hk Hkd Hok.
    - exists k. split; [lia|]. split; [done|]. left. lia.
    - destruct (encode_error env (foldl store (files w) (py_range k))
                  (path k) (clip k) sr)
        as [e|] eqn:He.
      + exists k. split; [lia|]. split; [done|]. right.
        split; [lia|]. by exists e.
      + destruct (IH (k + 1)) as (k' & Hk' & Hok' & Hend); [lia|lia| |].
        * intros j Hj. destruct (decide (j = k)) as [->|]; [done|].
          apply Hok. lia.
        * exists k'. split; [lia|]. done. }
  destruct (Hgen (Z.to_nat n) 0) as (k & Hk & Hok & Hend); [lia|lia| |].
  { intros j Hj. lia. }
  exists k. split; [lia|]. split; [done|].
  destruct Hend as [->|(Hlt & e & He)].
  - left. split; [done|]. by apply write_clips_complete.
  - right. split; [done|]. exists e. split; [done|].
    apply write_clips_abort; [lia|done|done].
Qed.
End Loop.

(** Once stored, a clip stays as it was written: later clips go to
    other paths. *)
Lemma files_after_lookup audio_data spc base out sr
    (fs : gmap string file) (k : nat) j :
  contains "/" base = false -> 0 <= j ->
  files_after zero audio_data spc base out sr fs (Z.of_nat k)
    !! path_str (clip_path out base j)
  = if decide (j < Z.of_nat k)
    then Some (Wav (padded_clip zero audio_data spc j) sr)
    else fs !! path_str (clip_path out base j).
Proof.
  intros Hbase Hj. unfold files_after. induction k as [|k IH].
  - cbn. by rewrite decide_False by lia.
  - unfold py_range in *. rewrite seqZ_S, foldl_app. cbn [foldl].
    rewrite Z.add_0_l. unfold store_clip at 1.
    destruct (decide (j = Z.of_nat k)) as [->|Hne].
    + rewrite lookup_insert_eq. by rewrite decide_True by lia.
    + rewrite lookup_insert_ne.
      2:{ intros Heq. apply Hne. symmetry.
          apply (clip_path_inj out base); [done|lia|done|done]. }
      rewrite IH. repeat case_decide; (done || lia).
Qed.
End Runs.

(** * The specification's claims *)

(** ** The partition arithmetic *)

(** The quotient of line 67 is a binary64 value, and beyond 53 bits it is
    not the exact one: a buffer of [2 ^ 53 + 1] samples cut into clips of
    one sample is one clip short, and one of [2 ^ 54 + 6] samples has two
    clips too many. *)
Example num_clips_rounds_above_2_53 :
  num_clips (2 ^ 53 + 1) 1 = Ok (2 ^ 53)
  /\ num_clips (2 ^ 54 + 6) 1 = Ok (2 ^ 54 + 8).
Proof. by vm_compute. Qed.

(** Scenario B of the specification: 250000 samples at 16 kHz in clips
    of ten seconds are two clips. *)
Example num_clips_scenario_B :
  samples_per_clip 10 16000 = 160000 /\ num_clips 250000 160000 = Ok 2.
Proof. by vm_compute. Qed.

(** C1 does not hold of the code: the quotient of line 67 is rounded to a
    binary64 value before the ceiling is taken.  With half a second of
    audio at 16 kHz (8000 samples) and a clip duration of [2 ^ 1075]
    seconds the ceiling of [L / sampleCount] is 1, but the quotient
    rounds to [0.0]: the clip count is 0, the clip sequence is empty, and
    the run returns the empty list having written nothing. *)
Theorem clip_count_underflow :
  let audio_data := replicate (Z.to_nat 8000) 0 in
  let L := total_samples audio_data in
  let s := samples_per_clip (2 ^ 1075) 16000 in
  (0 < s /\ (1 - 1) * s < L <= 1 * s)
  /\ num_clips L s = Ok 0
  /\ clips 0 (alloc_error demo_env_half_second) audio_data (2 ^ 1075) 16000
     = Ok []
  /\ exists w',
       convert_mp3_to_wav_clips 0 demo_env_half_second "track.mp3" "out"
         (2 ^ 1075) 16000 demo_world = (Ok [], w')
       /\ files w' = files demo_world.
Proof.
  intros audio_data L s.
  assert (HL : L = 8000) by (vm_compute; reflexivity).
  assert (Hs : s = 2 ^ 1075 * 16000) by reflexivity.
  assert (Hn : num_clips 8000 (2 ^ 1075 * 16000) = Ok 0)
    by (vm_compute; reflexivity).
  assert (0 < 2 ^ 1075) by (apply Z.pow_pos_nonneg; lia).
  split; [rewrite HL, Hs; lia|]. split; [by rewrite HL, Hs|]. split.
  - unfold clips. fold L s. rewrite HL, Hs, Hn. reflexivity.
  - eexists. split; vm_compute; reflexivity.
Qed.






(** C4 does not hold of the code, for the cause of C1: with half a
    second of audio at 16 kHz (8000 samples) and a clip duration of
    [2 ^ 1075] seconds the clip count of line 67 is 0, no clip is made,
    and the concatenation of the clips is empty where the buffer has 8000
    samples. *)
Theorem round_trip_underflow :
  let audio_data := replicate (Z.to_nat 8000) 0 in
  0 < samples_per_clip (2 ^ 1075) 16000
  /\ exists cs,
       clips 0 (alloc_error demo_env_half_second) audio_data
         (2 ^ 1075) 16000 = Ok cs
       /\ take (length audio_data) (concat cs) = []
       /\ take (length audio_data) (concat cs) <> audio_data.
Proof.
  intros audio_data.
  assert (HL : total_samples audio_data = 8000) by (vm_compute; reflexivity).
  assert (Hs : samples_per_clip (2 ^ 1075) 16000 = 2 ^ 1075 * 16000)
    by reflexivity.
  assert (Hn : num_clips 8000 (2 ^ 1075 * 16000) = Ok 0)
    by (vm_compute; reflexivity).
  assert (0 < 2 ^ 1075) by (apply Z.pow_pos_nonneg; lia).
  split; [rewrite Hs; lia|].
  exists []. split; [|split; [reflexivity|discriminate]].
  unfold clips. rewrite HL, Hs, Hn. reflexivity.
Qed.

(** ** The run *)

(** C5: the clips a run hands to the encoder are a function of the
    decoded buffer, the clip duration and the sample rate alone.  Two runs
    that return, on whatever file systems, paths, decoders and encoders,
    have written the same sequence of clips, padding included, whenever
    they decoded the same buffer. *)
Theorem clips_written_are_deterministic {sample} (zero : sample)
    (env1 env2 : Env)
    (input_file1 output_dir1 input_file2 output_dir2 : string)
    (clip_duration sample_rate : Z)
    (w1 w2 w1' w2' : @World sample) created1 created2 :
  convert_mp3_to_wav_clips zero env1 input_file1 output_dir1
    clip_duration sample_rate w1 = (Ok created1, w1') ->
  convert_mp3_to_wav_clips zero env2 input_file2 output_dir2
    clip_duration sample_rate w2 = (Ok created2, w2') ->
  decode env1 (files w1) input_file1 sample_rate
  = decode env2 (files w2) input_file2 sample_rate ->
  written_data (new_calls w1 w1') = written_data (new_calls w2 w2')
  /\ exists audio_data,
       decode env1 (files w1) input_file1 sample_rate = Ok audio_data /\
       clips zero (alloc_error env1) audio_data clip_duration sample_rate
       = Ok (written_data (new_calls w1 w1')).
Proof.
  assert (Hone : forall env input_file output_dir (w w' : @World sample)
                   created,
    convert_mp3_to_wav_clips zero env input_file output_dir
      clip_duration sample_rate w = (Ok created, w') ->
    exists audio_data,
      decode env (files w) input_file sample_rate = Ok audio_data /\
      clips zero (alloc_error env) audio_data clip_duration sample_rate
      = Ok (written_data (new_calls w w'))).
  { intros env input_file output_dir w w' created Hrun.
    apply convert_ok_inv
      in Hrun as (audio_data & n & _ & _ & Hdec & Hn & Hn63 & Hloop).
    apply write_clips_ok_data in Hloop as (t & Ht & Hm).
    exists audio_data. split; [done|].
    unfold clips. rewrite Hn. cbn [mbind result_bind].
    rewrite tqdm_range_ok by done. cbn [mbind result_bind].
    rewrite Hm. f_equal. unfold new_calls. rewrite Ht.
    cbn [trace loaded].
    rewrite <- app_assoc, drop_app_length.
    by rewrite written_data_app. }
  intros Hrun1 Hrun2 Hsame.
  destruct (Hone _ _ _ _ _ _ Hrun1) as (a1 & Hd1 & Hc1).
  destruct (Hone _ _ _ _ _ _ Hrun2) as (a2 & Hd2 & Hc2).
  split; [|by exists a1].
  rewrite Hd1, Hd2 in Hsame. injection Hsame as <-.
  apply clips_inv in Hc1 as (n1 & Hn1 & _ & ->).
  apply clips_inv in Hc2 as (n2 & Hn2 & _ & ->).
  rewrite Hn1 in Hn2. by injection Hn2 as <-.
Qed.

Lemma clips_written_are_deterministic_witness :
  let run1 := convert_mp3_to_wav_clips 0 demo_env
                "track.mp3" "out" 1 2 demo_world in
  let run2 := convert_mp3_to_wav_clips 0 demo_env_name_max
                "track.mp3" "elsewhere/clips" 1 2 demo_world in
  written_data (new_calls demo_world run1.2)
  = written_data (new_calls demo_world run2.2)
  /\ exists audio_data,
       decode demo_env (files demo_world) "track.mp3" 2 = Ok audio_data /\
       clips 0 (alloc_error demo_env) audio_data 1 2
       = Ok (written_data (new_calls demo_world run1.2)).
Proof.
  intros run1 run2.
  apply (clips_written_are_deterministic 0 demo_env demo_env_name_max
           "track.mp3" "out" "track.mp3" "elsewhere/clips" 1 2
           demo_world demo_world run1.2 run2.2
           ["out/track_clip_001.wav"; "out/track_clip_002.wav";
            "out/track_clip_003.wav"]
           ["elsewhere/clips/track_clip_001.wav";
            "elsewhere/clips/track_clip_002.wav";
            "elsewhere/clips/track_clip_003.wav"]);
    by vm_compute.
Defined.

(** The example of the specification: clip 0 of [track.mp3] goes to
    [track_clip_001.wav] in the output directory. *)
Example clip_path_track :
  path_str (clip_path (Path "output_clips") (stem (Path "track.mp3")) 0)
  = "output_clips/track_clip_001.wav"
  /\ path_str (clip_path (Path "a/b/") (stem (Path "/music/Song.MP3")) 6)
     = "a/b/Song_clip_007.wav".
Proof. by vm_compute. Qed.

(** A run on five samples in clips of two: the files it names and
    stores. *)
Example demo_run :
  let run := convert_mp3_to_wav_clips 0 demo_env "track.mp3" "out" 1 2
               demo_world in
  run.1 = Ok ["out/track_clip_001.wav"; "out/track_clip_002.wav";
              "out/track_clip_003.wav"]
  /\ files run.2 !! "out/track_clip_003.wav" = Some (Wav [5; 0] 2)
  /\ new_calls demo_world run.2
     = [CallExists "track.mp3"; CallMkdir "out"; CallLoad "track.mp3" 2;
        CallWrite "out/track_clip_001.wav" [1; 2] 2;
        CallWrite "out/track_clip_002.wav" [3; 4] 2;
        CallWrite "out/track_clip_003.wav" [5; 0] 2].
Proof. by vm_compute. Qed.

(** C6: in a run whose encoder does not fail, the file written for clip
    [i] is in the output directory (the path of the directory with one
    more component); its name is the name of the input file with the
    extension [.mp3], in whatever case, taken off, then [_clip_], the
    number [i + 1] zero-padded to three digits, and [.wav]; the returned
    list names it at position [i], and the file holds the clip the loop
    made. *)
Theorem clip_written_under_numbered_name {sample} (zero : sample)
    (env : Env) (input_file output_dir : string)
    (clip_duration sample_rate : Z) (w : @World sample) audio_data n i :
  let spc := samples_per_clip clip_duration sample_rate in
  let out := Path output_dir in
  let clip j := padded_clip zero audio_data spc j in
  reaches_loop env input_file output_dir clip_duration sample_rate w
    audio_data n ->
  clip_fits env clip_duration sample_rate ->
  (forall j, 0 <= j < n ->
     encode_error env
       (files_after zero audio_data spc (stem (Path input_file)) out
          sample_rate (files w) j)
       (path_str (clip_path out (stem (Path input_file)) j))
       (clip j) sample_rate = None) ->
  0 <= i < n ->
  exists created w' base ext digits,
    convert_mp3_to_wav_clips zero env input_file output_dir
      clip_duration sample_rate w = (Ok created, w') /\
    name (Path input_file) = base +:+ ext /\
    lower ext = ".mp3" /\
    zero_padded 3 (Z.to_N (i + 1)) digits /\
    clip_data zero (alloc_error env) audio_data spc i = Ok (clip i) /\
    let p := {| root := root out;
                tail := tail out
                        ++ [base +:+ "_clip_" +:+ digits +:+ ".wav"] |} in
    created !! Z.to_nat i = Some (path_str p) /\
    files w' !! path_str p = Some (Wav (clip i) sample_rate).
Proof.
  intros spc out clip Hreach (Hspc & Halloc) Hok Hi.
  pose proof Hreach as ((_ & _ & Hsfx) & _ & _ & _ & Hsr0 & _).
  rewrite (convert_reaches_loop zero env _ _ _ _ _ _ _ Hreach).
  fold spc out. set (base := stem (Path input_file)) in *.
  rewrite write_clips_complete by (done || exact Hok).
  assert (Hbase : contains "/" base = false) by apply stem_no_slash.
  eexists _, _, base, (suffix (Path input_file)), (format_03d (i + 1)).
  split; [done|].
  split; [symmetry; apply stem_suffix_name|]. split; [done|].
  split; [apply format_03d_zero_padded; lia|].
  split; [apply clip_data_ok; [lia|done]|]. cbn zeta.
  pose proof (clip_path_tail out base i Hbase ltac:(lia)) as Hp.
  unfold clip_filename in Hp. rewrite <- Hp. split.
  - rewrite list_lookup_fmap. unfold py_range.
    rewrite lookup_seqZ_lt by lia. cbn. do 3 f_equal. lia.
  - cbn [files loaded].
    replace n with (Z.of_nat (Z.to_nat n)) by lia.
    fold (files_after zero audio_data spc base out sample_rate (files w)
            (Z.of_nat (Z.to_nat n))).
    rewrite files_after_lookup by (done || lia).
    by rewrite decide_True by lia.
Qed.

Lemma clip_written_under_numbered_name_witness :
  exists created w' base ext digits,
    convert_mp3_to_wav_clips 0 demo_env "track.mp3" "out" 1 2 demo_world
    = (Ok created, w') /\
    name (Path "track.mp3") = base +:+ ext /\
    lower ext = ".mp3" /\
    zero_padded 3 (Z.to_N (2 + 1)) digits /\
    clip_data 0 (alloc_error demo_env) [1; 2; 3; 4; 5]
      (samples_per_clip 1 2) 2
    = Ok (padded_clip 0 [1; 2; 3; 4; 5] (samples_per_clip 1 2) 2) /\
    let p := {| root := root (Path "out");
                tail := tail (Path "out")
                        ++ [base +:+ "_clip_" +:+ digits +:+ ".wav"] |} in
    created !! Z.to_nat 2 = Some (path_str p) /\
    files w' !! path_str p
    = Some (Wav (padded_clip 0 [1; 2; 3; 4; 5] (samples_per_clip 1 2) 2) 2).
Proof.
  apply (clip_written_under_numbered_name 0 demo_env
           "track.mp3" "out" 1 2 demo_world [1; 2; 3; 4; 5] 3 2).
  - apply reaches_loop_int64; try by vm_compute.
    + split; [done|split; [left; vm_compute; by eexists|done]].
    + split; [done|by vm_compute; repeat constructor].
  - by vm_compute.
  - intros j _. reflexivity.
  - lia.
Defined.

(** C7, as the specification states it, fails when the operating system
    refuses to examine the path: where names have at most 255 characters
    (Linux), for an input path of 304 characters that does not exist
    [Path.exists] raises [OSError] (errno 36, file name too long), and
    the run raises it in place of [FileNotFoundError]. *)
Lemma missing_input_with_long_name :
  let input_file := string_replicate 300 "a" +:+ ".mp3" in
  files demo_world !! path_str (Path input_file) = None
  /\ (path_str (Path input_file) ∉ dirs demo_world)
  /\ convert_mp3_to_wav_clips 0 demo_env_name_max input_file "out"
       10 16000 demo_world
     = (Raise (OSError "[Errno 36] File name too long"),
        {| files := files demo_world;
           dirs := dirs demo_world;
           trace := [CallExists input_file] |}).
Proof.
  intros input_file.
  split; [by vm_compute|]. split; [apply not_elem_of_empty|].
  by vm_compute.
Qed.

(** C7 (amended): when nothing is at the input path, and the operating
    system does not refuse to examine it, the run raises
    [FileNotFoundError] having only asked whether the path exists: the
    files and directories are as before, and neither [mkdir] nor the
    decoder nor the encoder was called. *)
Theorem missing_input_raises_before_any_effect {sample} (zero : sample)
    (env : Env) (input_file output_dir : string)
    (clip_duration sample_rate : Z) (w : @World sample) :
  stat_error env (path_str (Path input_file)) = None ->
  files w !! path_str (Path input_file) = None ->
  path_str (Path input_file) ∉ dirs w ->
  convert_mp3_to_wav_clips zero env input_file output_dir
    clip_duration sample_rate w
  = (Raise (FileNotFoundError ("Input file not found: " +:+ input_file)),
     {| files := files w;
        dirs := dirs w;
        trace := trace w ++ [CallExists (path_str (Path input_file))] |}).
Proof.
  intros Hstat Hfile Hdir. unfold convert_mp3_to_wav_clips.
  erewrite bind_ok by (by apply Path_exists_ok).
  by rewrite present_false by done.
Qed.

Lemma missing_input_raises_before_any_effect_witness :
  convert_mp3_to_wav_clips 0 demo_env_name_max
    "missing.mp3" "out" 10 16000 demo_world
  = (Raise (FileNotFoundError "Input file not found: missing.mp3"),
     {| files := files demo_world;
        dirs := dirs demo_world;
        trace := [CallExists "missing.mp3"] |}).
Proof.
  apply (missing_input_raises_before_any_effect 0 demo_env_name_max
           "missing.mp3" "out" 10 16000 demo_world).
  - by vm_compute.
  - by vm_compute.
  - apply not_elem_of_empty.
Defined.

(** C8, as the specification states it, fails for a clip duration of
    more than 4300 digits: the decoder returns no sample, the clip count
    is 0, and the message of line 69, which holds the clip duration,
    raises [ValueError]; the run does not return the empty list. *)
Lemma empty_buffer_long_clip_duration :
  0 < 10 ^ 4400
  /\ decode demo_env_empty (files demo_world) "track.mp3" 16000 = Ok []
  /\ num_clips (total_samples (@nil Z)) (samples_per_clip (10 ^ 4400) 16000)
     = Ok 0
  /\ exists msg w',
       convert_mp3_to_wav_clips 0 demo_env_empty "track.mp3" "out/clips"
         (10 ^ 4400) 16000 demo_world
       = (Raise (ValueError msg), w').
Proof.
  split; [apply Z.pow_pos_nonneg; lia|]. split; [done|].
  split; [vm_compute; reflexivity|].
  eexists _, _. vm_compute. reflexivity.
Qed.

(** C8 (amended): when the decoder returns no sample, for an accepted
    input and a positive clip duration and sample rate of at most 4300
    digits each, the run returns the empty list after the calls to
    [exists], [mkdir] and the decoder: no call to the encoder, the files
    as before, and the output directory among the directories. *)
Theorem empty_buffer_gives_no_clips {sample} (zero : sample)
    (env : Env) (input_file output_dir : string)
    (clip_duration sample_rate : Z) (w : @World sample) :
  valid_input env input_file w ->
  mkdir_free env output_dir w ->
  decode env (files w) input_file sample_rate = Ok [] ->
  0 < clip_duration < 10 ^ int_max_str_digits ->
  0 < sample_rate < 10 ^ int_max_str_digits ->
  exists w',
    convert_mp3_to_wav_clips zero env input_file output_dir
      clip_duration sample_rate w = (Ok [], w') /\
    clips zero (alloc_error env) [] clip_duration sample_rate = Ok [] /\
    files w' = files w /\
    path_str (Path output_dir) ∈ dirs w' /\
    trace w' = trace w ++ [CallExists (path_str (Path input_file));
                           CallMkdir (path_str (Path output_dir));
                           CallLoad input_file sample_rate].
Proof.
  intros Hv Hfree Hdec Hcd Hsr.
  assert (Hs : samples_per_clip clip_duration sample_rate <> 0)
    by (unfold samples_per_clip; nia).
  assert (Hn : num_clips (total_samples (@nil sample))
                 (samples_per_clip clip_duration sample_rate) = Ok 0).
  { unfold num_clips, py_truediv, total_samples. cbn [length].
    change (Z.of_nat 0) with 0.
    destruct (Z.eqb_spec (samples_per_clip clip_duration sample_rate) 0);
      [done|]. done. }
  rewrite (convert_reaches_loop zero env _ _ _ _ _ [] 0).
  2:{ split; [done|]. split; [done|]. split; [done|].
      split; [by vm_compute|]. split; [lia|]. split; [lia|].
      split; [lia|]. split; [done|]. by vm_compute. }
  eexists. split; [reflexivity|]. split.
  { unfold clips. by rewrite Hn. }
  split; [done|]. split; [|done].
  cbn [dirs loaded]. apply elem_of_union_r, elem_of_list_to_set.
  apply list_elem_of_fmap. eexists. split; [done|]. apply lineage_self.
Qed.

Lemma empty_buffer_gives_no_clips_witness :
  exists w',
    convert_mp3_to_wav_clips 0 demo_env_empty
      "track.mp3" "out/clips" 10 16000 demo_world = (Ok [], w') /\
    clips 0 (alloc_error demo_env_empty) [] 10 16000 = Ok [] /\
    files w' = files demo_world /\
    path_str (Path "out/clips") ∈ dirs w' /\
    trace w' = trace demo_world
               ++ [CallExists (path_str (Path "track.mp3"));
                   CallMkdir (path_str (Path "out/clips"));
                   CallLoad "track.mp3" 16000].
Proof.
  apply (empty_buffer_gives_no_clips 0 demo_env_empty
           "track.mp3" "out/clips" 10 16000 demo_world).
  - split; [done|split; [left; vm_compute; by eexists|done]].
  - split; [done|by vm_compute; repeat constructor].
  - done.
  - split; [lia|apply int64_lt_limit; lia].
  - split; [lia|apply int64_lt_limit; lia].
Defined.

(** C9: the encoder is called for the clips in index order from 0.  When
    the calls for the clips before [k] succeed and the call for clip [k]
    raises, the run raises that exception; the calls to the encoder are
    those for clips 0 to [k] in this order and no other, each with the
    clip the loop made; each clip before [k] is on disk as it was
    written; and at the path of every clip from [k] on the disk holds
    what it held before the run. *)
Theorem encoder_failure_aborts_and_keeps_earlier_clips {sample}
    (zero : sample) (env : Env) (input_file output_dir : string)
    (clip_duration sample_rate : Z) (w : @World sample) audio_data n k e :
  let spc := samples_per_clip clip_duration sample_rate in
  let base := stem (Path input_file) in
  let out := Path output_dir in
  let path j := path_str (clip_path out base j) in
  let clip j := padded_clip zero audio_data spc j in
  let disk j :=
    files_after zero audio_data spc base out sample_rate (files w) j in
  reaches_loop env input_file output_dir clip_duration sample_rate w
    audio_data n ->
  clip_fits env clip_duration sample_rate ->
  0 <= k < n ->
  (forall j, 0 <= j < k ->
     encode_error env (disk j) (path j) (clip j) sample_rate = None) ->
  encode_error env (disk k) (path k) (clip k) sample_rate = Some e ->
  exists w',
    convert_mp3_to_wav_clips zero env input_file output_dir
      clip_duration sample_rate w = (Raise e, w') /\
    new_calls w w'
    = [CallExists (path_str (Path input_file));
       CallMkdir (path_str out);
       CallLoad input_file sample_rate]
      ++ ((fun j => CallWrite (path j) (clip j) sample_rate)
          <$> py_range (k + 1)) /\
    (forall j, 0 <= j <= k ->
       clip_data zero (alloc_error env) audio_data spc j = Ok (clip j)) /\
    (forall j, 0 <= j < k ->
       files w' !! path j = Some (Wav (clip j) sample_rate)) /\
    (forall j, k <= j -> files w' !! path j = files w !! path j).
Proof.
  intros spc base out path clip disk Hreach (Hspc & Halloc) Hk Hok Hfail.
  pose proof Hreach as (_ & _ & _ & _ & Hsr0 & _).
  subst path disk clip. cbn beta in *. unfold files_after in Hok, Hfail.
  rewrite (convert_reaches_loop zero env _ _ _ _ _ _ _ Hreach).
  fold spc base out.
  rewrite (write_clips_abort zero env audio_data spc base out
             sample_rate Hspc Halloc Hsr0 n k e) by done.
  assert (Hbase : contains "/" base = false) by apply stem_no_slash.
  eexists. split; [done|]. cbn [files trace loaded].
  split; [|split; [|split]].
  - unfold new_calls. cbn [trace].
    by rewrite <- app_assoc, drop_app_length.
  - intros j _. apply clip_data_ok; [lia|done].
  - intros j Hj. replace k with (Z.of_nat (Z.to_nat k)) by lia.
    fold (files_after zero audio_data spc base out sample_rate (files w)
            (Z.of_nat (Z.to_nat k))).
    rewrite files_after_lookup by (done || lia).
    by rewrite decide_True by lia.
  - intros j Hj. replace k with (Z.of_nat (Z.to_nat k)) by lia.
    fold (files_after zero audio_data spc base out sample_rate (files w)
            (Z.of_nat (Z.to_nat k))).
    rewrite files_after_lookup by (done || lia).
    by rewrite decide_False by lia.
Qed.

Lemma encoder_failure_aborts_and_keeps_earlier_clips_witness :
  let path j := path_str (clip_path (Path "out") (stem (Path "track.mp3")) j) in
  let clip j := padded_clip 0 [1; 2; 3; 4; 5] (samples_per_clip 1 2) j in
  exists w',
    convert_mp3_to_wav_clips 0 demo_env_disk_full
      "track.mp3" "out" 1 2 demo_world
    = (Raise (LibraryError "disk full"), w') /\
    new_calls demo_world w'
    = [CallExists (path_str (Path "track.mp3"));
       CallMkdir (path_str (Path "out"));
       CallLoad "track.mp3" 2]
      ++ ((fun j => CallWrite (path j) (clip j) 2) <$> py_range (1 + 1)) /\
    (forall j, 0 <= j <= 1 ->
       clip_data 0 (alloc_error demo_env_disk_full) [1; 2; 3; 4; 5]
         (samples_per_clip 1 2) j = Ok (clip j)) /\
    (forall j, 0 <= j < 1 -> files w' !! path j = Some (Wav (clip j) 2)) /\
    (forall j, 1 <= j -> files w' !! path j = files demo_world !! path j).
Proof.
  apply (encoder_failure_aborts_and_keeps_earlier_clips 0
           demo_env_disk_full "track.mp3" "out" 1 2 demo_world
           [1; 2; 3; 4; 5] 3 1 (LibraryError "disk full")).
  - apply reaches_loop_int64; try by vm_compute.
    + split; [done|split; [left; vm_compute; by eexists|done]].
    + split; [done|by vm_compute; repeat constructor].
  - by vm_compute.
  - lia.
  - intros j Hj. assert (j = 0) as -> by lia. by vm_compute.
  - by vm_compute.
Defined.



(** The suffix is compared in lower case: [SONG.MP3] is accepted. *)
Example upper_case_suffix_accepted :
  lower (suffix (Path "music/SONG.MP3")) = ".mp3"
  /\ lower (suffix (Path "music/song.mp3.bak")) = ".bak".
Proof. by vm_compute. Qed.

(** * Further properties of the code *)

(** ** The partition inside the range of the binary64 quotient *)

(** X1: for a buffer of fewer than [2 ^ 53] samples and a positive clip
    length that is a 64-bit integer, with the arrays of the padding
    granted, the clips are made and their number is the ceiling of
    [L / sampleCount], the [n] with [(n - 1) * sampleCount < L <= n *
    sampleCount]; and when [L > 0] the raw slice of the final clip has
    [L - (n - 1) * sampleCount] samples. *)
Theorem clip_count_is_ceiling {sample} (zero : sample) alloc_error
    (audio_data : list sample) (clip_duration sample_rate : Z) :
  let L := total_samples audio_data in
  let s := samples_per_clip clip_duration sample_rate in
  L < 2 ^ 53 -> 0 < s < 2 ^ 63 -> alloc_error s = None ->
  exists cs,
    clips zero alloc_error audio_data clip_duration sample_rate = Ok cs /\
    let n := Z.of_nat (length cs) in
    (n - 1) * s < L <= n * s /\
    (0 < L ->
     Z.of_nat (length (raw_clip audio_data s (n - 1))) = L - (n - 1) * s).
Proof.
  intros L s HL Hs Halloc.
  assert (HL0 : 0 <= L) by (subst L; unfold total_samples; lia).
  assert (H1075 : 2 ^ 63 < 2 ^ 1075) by (apply Z.pow_lt_mono_r; lia).
  assert (H53 : 2 ^ 53 < 2 ^ 63) by (apply Z.pow_lt_mono_r; lia).
  destruct (num_clips_exact L s ltac:(lia) ltac:(lia))
    as (n & Hn & Hlo & Hhi).
  assert (Hn0 : 0 <= n) by nia.
  assert (Hn63 : n < 2 ^ 63) by nia.
  rewrite (clips_ok zero alloc_error audio_data _ _ n) by (done || lia).
  eexists. split; [done|].
  rewrite length_fmap. unfold py_range. rewrite length_seqZ.
  rewrite Z2Nat.id by done. cbn zeta. split; [done|]. intros Hpos.
  assert (1 <= n) by nia.
  rewrite raw_clip_take_drop by lia.
  rewrite length_take, length_drop. fold (total_samples audio_data) in *.
  unfold total_samples in L. nia.
Qed.

Lemma clip_count_is_ceiling_witness :
  exists cs,
    clips 0 (fun _ => None) [1; 2; 3; 4; 5] 1 2 = Ok cs /\
    let n := Z.of_nat (length cs) in
    (n - 1) * 2 < 5 <= n * 2 /\
    (0 < 5 -> Z.of_nat (length (raw_clip [1; 2; 3; 4; 5] 2 (n - 1)))
              = 5 - (n - 1) * 2).
Proof.
  apply (clip_count_is_ceiling 0 (fun _ => None) [1; 2; 3; 4; 5] 1 2);
    by vm_compute.
Defined.

(** X2: in the same range the first [L] samples of the clips
    concatenated in index order are the buffer. *)
Theorem concatenated_clips_rebuild_buffer {sample} (zero : sample)
    alloc_error (audio_data : list sample) (clip_duration sample_rate : Z) :
  let s := samples_per_clip clip_duration sample_rate in
  total_samples audio_data < 2 ^ 53 ->
  0 < s < 2 ^ 63 -> alloc_error s = None ->
  exists cs,
    clips zero alloc_error audio_data clip_duration sample_rate = Ok cs /\
    take (length audio_data) (concat cs) = audio_data.
Proof.
  intros s HL Hs Halloc.
  assert (H1075 : 2 ^ 63 < 2 ^ 1075) by (apply Z.pow_lt_mono_r; lia).
  assert (H53 : 2 ^ 53 < 2 ^ 63) by (apply Z.pow_lt_mono_r; lia).
  destruct (num_clips_exact (total_samples audio_data) s)
    as (n & Hn & Hlo & Hhi);
    [unfold total_samples in *; lia|lia|].
  assert (Hn0 : 0 <= n) by (unfold total_samples in *; nia).
  assert (Hn63 : n < 2 ^ 63) by (unfold total_samples in *; nia).
  rewrite (clips_ok zero alloc_error audio_data _ _ n) by (done || lia).
  eexists. split; [done|].
  rewrite py_range_nat, <- list_fmap_compose.
  erewrite list_fmap_ext.
  - apply (concat_chunks zero (Z.to_nat s)); [lia|].
    unfold total_samples in *. nia.
  - intros _ j _. cbn beta. unfold compose. fold s.
    rewrite padded_clip_take_drop by lia.
    cbn zeta.
    by replace (Z.to_nat (Z.of_nat j * s)) with (j * Z.to_nat s)%nat by lia.
Qed.

Lemma concatenated_clips_rebuild_buffer_witness :
  exists cs,
    clips 0 (fun _ => None) [1; 2; 3; 4; 5] 1 2 = Ok cs /\
    take (length [1; 2; 3; 4; 5]) (concat cs) = [1; 2; 3; 4; 5].
Proof.
  apply (concatenated_clips_rebuild_buffer 0 (fun _ => None)
           [1; 2; 3; 4; 5] 1 2); by vm_compute.
Defined.

(** X3: a clip length of [2 ^ 63] samples or more, which a clip duration
    of [2 ^ 63] seconds gives at any sample rate, is refused by [np.pad]
    at the first clip of a buffer that is not empty: the pad width is no
    64-bit integer, and the clip raises [TypeError]. *)
Theorem clip_length_beyond_int64_raises {sample} (zero : sample)
    alloc_error (audio_data : list sample) (s : Z) :
  0 < total_samples audio_data < 2 ^ 63 ->
  2 ^ 63 + total_samples audio_data <= s ->
  clip_data zero alloc_error audio_data s 0
  = Raise (TypeError "`pad_width` must be of integral type.").
Proof.
  intros HL Hs. unfold clip_data.
  assert (Hraw : Z.of_nat (length (raw_clip audio_data s 0))
                 <= total_samples audio_data).
  { rewrite raw_clip_take_drop by lia. rewrite length_take, length_drop.
    unfold total_samples. lia. }
  destruct (Z.ltb_spec (Z.of_nat (length (raw_clip audio_data s 0))) s);
    [|lia].
  unfold np_pad, fits_int64.
  rewrite (proj2 (Z.ltb_ge (s - Z.of_nat (length (raw_clip audio_data s 0)))
                    (2 ^ 63))) by lia.
  by rewrite !andb_false_r.
Qed.

Lemma clip_length_beyond_int64_raises_witness :
  clip_data 0 (fun _ => None) [7] (2 ^ 63 + 1) 0
  = Raise (TypeError "`pad_width` must be of integral type.").
Proof.
  apply (clip_length_beyond_int64_raises 0 (fun _ => None) [7]
           (2 ^ 63 + 1)); by vm_compute.
Defined.

(** ** The clip count outside the positive clip lengths *)

(** A negative clip length never gives a positive clip count. *)
Lemma num_clips_sign L s n :
  0 <= L -> s < 0 -> num_clips L s = Ok n -> n <= 0.
Proof.
  intros HL Hs. unfold num_clips, py_truediv.
  destruct (Z.eqb_spec s 0) as [?|_]; [lia|].
  destruct (Z.eqb_spec L 0) as [->|HL0].
  { cbn. intros [= <-]. lia. }
  pose proof (round_binary64_nonneg (Z.abs L) (Z.abs s) ltac:(lia) ltac:(lia))
    as Hm.
  destruct (round_binary64 (Z.abs L) (Z.abs s)) as [m e].
  cbn [mantissa exponent] in *.
  destruct (is_finite _); [|done]. cbn [mbind result_bind mret result_ret].
  rewrite (Z.sgn_pos L), (Z.sgn_neg s) by lia.
  intros [= <-]. unfold np_ceil, py_int. cbn [mantissa exponent].
  destruct (Z.leb_spec 0 e) as [He|He]; cbn [mantissa exponent].
  - rewrite (proj2 (Z.leb_le 0 e) He).
    assert (0 < 2 ^ e) by (apply Z.pow_pos_nonneg; lia). nia.
  - change (0 <=? 0) with true. cbv iota. change (2 ^ 0) with 1.
    assert (0 < 2 ^ (- e)) by (apply Z.pow_pos_nonneg; lia).
    replace (- (1 * -1 * m)) with m by lia.
    assert (0 <= m / 2 ^ (- e)) by (by apply Z.div_pos). lia.
Qed.

(** Below [2 ^ 53] samples the quotient by a negative clip length is
    finite, and the clip count is between [- L] and 0. *)
Lemma num_clips_negative L s :
  0 <= L < 2 ^ 53 -> s < 0 ->
  exists n, num_clips L s = Ok n /\ - L <= n <= 0.
Proof.
  intros HL Hs. unfold num_clips, py_truediv.
  destruct (Z.eqb_spec s 0) as [?|_]; [lia|].
  destruct (Z.eqb_spec L 0) as [->|HL0].
  { exists 0. cbn. split; [done|lia]. }
  rewrite (Z.abs_eq L) by lia.
  destruct (round_binary64_small L (Z.abs s) ltac:(lia) ltac:(lia))
    as (He & _ & _).
  pose proof (round_binary64_upper L (Z.abs s) L ltac:(lia) ltac:(lia)
                ltac:(nia)) as Hup.
  pose proof (round_binary64_nonneg L (Z.abs s) ltac:(lia) ltac:(lia)) as Hm.
  cbn zeta in *.
  destruct (round_binary64 L (Z.abs s)) as [m e']. cbn [mantissa exponent] in *.
  assert (HP : 0 < 2 ^ (- e')) by (apply Z.pow_pos_nonneg; lia).
  assert (Hfin : is_finite (Float m e') = true).
  { unfold is_finite. cbn [mantissa exponent].
    destruct (Z.leb_spec 0 e'); [|done].
    assert (e' = 0) as -> by lia. change (2 ^ (- 0)) with 1 in *.
    change (2 ^ 0) with 1. apply Z.ltb_lt.
    assert (2 ^ 53 < 2 ^ 1024) by (apply Z.pow_lt_mono_r; lia). lia. }
  rewrite Hfin. cbn [mbind result_bind mret result_ret].
  rewrite (Z.sgn_pos L), (Z.sgn_neg s) by lia.
  eexists. split; [done|].
  unfold np_ceil, py_int. cbn [mantissa exponent].
  destruct (Z.leb_spec 0 e') as [He0|He0]; cbn [mantissa exponent].
  - assert (e' = 0) as -> by lia. change (2 ^ (- 0)) with 1 in *.
    change (0 <=? 0) with true. cbv iota. change (2 ^ 0) with 1. lia.
  - change (0 <=? 0) with true. cbv iota. change (2 ^ 0) with 1.
    replace (- (1 * -1 * m)) with m by lia.
    assert (0 <= m / 2 ^ (- e')) by (by apply Z.div_pos).
    assert (m / 2 ^ (- e') <= L).
    { apply Z.div_le_upper_bound; [done|]. lia. }
    lia.
Qed.

(** ** Runs that stop before the loop *)

Section EarlyExits.
Context {sample : Type} (zero : sample) (env : @Env sample).
Implicit Types (w : @World sample) (audio_data : list sample).

Lemma convert_after_exists input_file output_dir clip_duration sample_rate w :
  valid_input env input_file w ->
  convert_mp3_to_wav_clips zero env input_file output_dir clip_duration
    sample_rate w
  = (Path_mkdir env (Path output_dir) ≫= fun _ =>
     librosa_load env input_file sample_rate ≫= fun '(audio_data, orig_sr) =>
     lift (plan_clips audio_data clip_duration sample_rate orig_sr)
     ≫= fun indices =>
     write_clips zero env audio_data
       (samples_per_clip clip_duration sample_rate)
       (stem (Path input_file)) (Path output_dir) sample_rate indices [])
      (record_call w (CallExists (path_str (Path input_file)))).
Proof.
  intros (Hstat & Hex & Hsfx). unfold convert_mp3_to_wav_clips.
  erewrite bind_ok by (by apply Path_exists_ok).
  rewrite present_true by done.
  cbn [negb]. rewrite Hsfx.
  by rewrite bool_decide_eq_true_2 by (by apply list_elem_of_singleton).
Qed.

(** A run that does not get past the checks of lines 44 to 48 has only
    asked whether the input exists. *)
Lemma convert_rejected input_file output_dir clip_duration sample_rate w :
  ~ valid_input env input_file w ->
  (convert_mp3_to_wav_clips zero env input_file output_dir clip_duration
     sample_rate w).2
  = record_call w (CallExists (path_str (Path input_file))).
Proof.
  intros Hnv. unfold convert_mp3_to_wav_clips.
  destruct (stat_error env (path_str (Path input_file))) as [e|] eqn:Hstat.
  { by erewrite bind_raise by (by apply Path_exists_raise). }
  erewrite bind_ok by (by apply Path_exists_ok).
  destruct (present w (path_str (Path input_file))) eqn:Hex;
    cbn [negb]; [|done].
  destruct (bool_decide (lower (suffix (Path input_file)) ∈ [".mp3"]))
    eqn:Hsfx; cbn [negb]; [|done].
  exfalso. apply Hnv. split; [done|]. split; [by apply present_true_inv|].
  apply bool_decide_eq_true in Hsfx.
  by apply list_elem_of_singleton in Hsfx.
Qed.

Lemma Path_mkdir_blocked p w q :
  mkdir_error env (path_str p) = None ->
  q ∈ lineage p -> is_Some (files w !! path_str q) ->
  exists e,
    Path_mkdir env p w
    = (Raise e, record_call w (CallMkdir (path_str p))) /\
    ((exists x, e = FileExistsError x) \/ (exists x, e = NotADirectoryError x)).
Proof.
  intros Hos Hq Hfile. unfold Path_mkdir.
  erewrite bind_ok by reflexivity. rewrite Hos.
  erewrite bind_ok by reflexivity.
  cbn [files record_call].
  destruct (list_find _ _) as [[j x]|] eqn:Hfind.
  - eexists. split; [done|]. case_decide; [left|right]; by eexists.
  - exfalso. rewrite list_find_None, Forall_forall in Hfind.
    apply (Hfind (path_str q)); [|done].
    apply list_elem_of_fmap. by exists q.
Qed.
End EarlyExits.



(** X5: a negative clip length (one of clip duration and sample rate
    negative) is not an error: for a buffer of fewer than [2 ^ 53]
    samples, and numbers of at most 4300 digits, the clip count is not
    positive, the loop does not run, and the run returns the empty list
    with the output directory made and nothing written. *)
Theorem negative_clip_length_writes_nothing {sample} (zero : sample)
    (env : Env) (input_file output_dir : string)
    (clip_duration sample_rate : Z) (w : @World sample) audio_data :
  valid_input env input_file w ->
  mkdir_free env output_dir w ->
  decode env (files w) input_file sample_rate = Ok audio_data ->
  total_samples audio_data < 2 ^ 53 ->
  Z.abs sample_rate < 10 ^ int_max_str_digits ->
  Z.abs clip_duration < 10 ^ int_max_str_digits ->
  samples_per_clip clip_duration sample_rate < 0 ->
  convert_mp3_to_wav_clips zero env input_file output_dir
    clip_duration sample_rate w
  = (Ok [],
     {| files := files w;
        dirs := dirs w
                ∪ list_to_set (path_str <$> lineage (Path output_dir));
        trace := trace w
                 ++ [CallExists (path_str (Path input_file));
                     CallMkdir (path_str (Path output_dir));
                     CallLoad input_file sample_rate] |}).
Proof.
  intros Hv Hfree Hdec HL Hsr Hcd Hs.
  assert (H53 : 2 ^ 53 < 2 ^ 63) by (apply Z.pow_lt_mono_r; lia).
  destruct (num_clips_negative (total_samples audio_data)
              (samples_per_clip clip_duration sample_rate))
    as (n & Hn & Hn0); [unfold total_samples in *; lia|done|].
  rewrite (convert_reaches_loop zero env _ _ _ _ _ audio_data n).
  - unfold py_range. by rewrite seqZ_nil by lia.
  - repeat (split; [done || lia|]).
    split; [unfold samples_per_clip in Hs; nia|].
    repeat (split; [done|]). lia.
Qed.

Lemma negative_clip_length_writes_nothing_witness :
  convert_mp3_to_wav_clips 0 demo_env "track.mp3" "out" (-10) 16000
    demo_world
  = (Ok [],
     {| files := files demo_world;
        dirs := dirs demo_world
                ∪ list_to_set (path_str <$> lineage (Path "out"));
        trace := trace demo_world
                 ++ [CallExists (path_str (Path "track.mp3"));
                     CallMkdir (path_str (Path "out"));
                     CallLoad "track.mp3" 16000] |}).
Proof.
  apply (negative_clip_length_writes_nothing 0 demo_env
           "track.mp3" "out" (-10) 16000 demo_world [1; 2; 3; 4; 5]).
  - split; [done|split; [left; vm_compute; by eexists|done]].
  - split; [done|by vm_compute; repeat constructor].
  - by vm_compute.
  - by vm_compute.
  - apply int64_lt_limit. by vm_compute.
  - apply int64_lt_limit. by vm_compute.
  - by vm_compute.
Defined.

(** X6: an exception of the decoder leaves the run as it is, after the
    output directory was made: the directory stays, nothing is
    written. *)
Theorem decoder_failure_leaves_directory {sample} (zero : sample)
    (env : Env) (input_file output_dir : string)
    (clip_duration sample_rate : Z) (w : @World sample) e :
  valid_input env input_file w ->
  mkdir_free env output_dir w ->
  decode env (files w) input_file sample_rate = Raise e ->
  exists w',
    convert_mp3_to_wav_clips zero env input_file output_dir
      clip_duration sample_rate w = (Raise e, w') /\
    files w' = files w /\
    path_str (Path output_dir) ∈ dirs w' /\
    new_calls w w' = [CallExists (path_str (Path input_file));
                      CallMkdir (path_str (Path output_dir));
                      CallLoad input_file sample_rate].
Proof.
  intros Hv [Hos Hfree] Hdec.
  rewrite (convert_after_exists zero env) by done.
  erewrite bind_ok by (by apply Path_mkdir_ok).
  erewrite bind_raise by (by apply librosa_load_raise).
  eexists. split; [done|]. unfold record_call. cbn [files dirs trace].
  split; [done|]. split.
  - apply elem_of_union_r, elem_of_list_to_set.
    apply list_elem_of_fmap. eexists. split; [done|]. apply lineage_self.
  - unfold new_calls, record_call. cbn [trace]. rewrite <- !app_assoc.
    by rewrite drop_app_length.
Qed.

Lemma decoder_failure_leaves_directory_witness :
  exists w',
    convert_mp3_to_wav_clips 0 demo_env "notes.mp3" "out" 10 16000
      {| files := {[ "notes.mp3" := Wav [1] 8000 ]}; dirs := ∅; trace := [] |}
    = (Raise (LibraryError "decode"), w') /\
    files w' = {[ "notes.mp3" := Wav [1] 8000 ]} /\
    path_str (Path "out") ∈ dirs w' /\
    new_calls {| files := {[ "notes.mp3" := Wav [1] 8000 ]};
                 dirs := ∅; trace := [] |} w'
    = [CallExists (path_str (Path "notes.mp3"));
       CallMkdir (path_str (Path "out"));
       CallLoad "notes.mp3" 16000].
Proof.
  refine (decoder_failure_leaves_directory 0 demo_env
            "notes.mp3" "out" 10 16000
            {| files := {[ "notes.mp3" := Wav [1] 8000 ]};
               dirs := ∅; trace := [] |} (LibraryError "decode") _ _ _).
  - split; [done|split; [left; vm_compute; by eexists|done]].
  - split; [done|by vm_compute; repeat constructor].
  - by vm_compute.
Defined.

(** X7: when a file is in the way of the output directory (at its path
    or at the path of a directory above it), and the operating system
    does not refuse [mkdir] for a reason of its own, the run raises
    [FileExistsError] or [NotADirectoryError] from [mkdir]: the decoder
    is never called, and files and directories are as before. *)
Theorem blocked_output_directory_raises_before_decoding {sample}
    (zero : sample) (env : Env) (input_file output_dir : string)
    (clip_duration sample_rate : Z) (w : @World sample) q :
  valid_input env input_file w ->
  mkdir_error env (path_str (Path output_dir)) = None ->
  q ∈ lineage (Path output_dir) ->
  is_Some (files w !! path_str q) ->
  exists e,
    convert_mp3_to_wav_clips zero env input_file output_dir
      clip_duration sample_rate w
    = (Raise e,
       {| files := files w;
          dirs := dirs w;
          trace := trace w ++ [CallExists (path_str (Path input_file));
                               CallMkdir (path_str (Path output_dir))] |})
    /\ ((exists x, e = FileExistsError x)
        \/ (exists x, e = NotADirectoryError x)).
Proof.
  intros Hv Hos Hq Hfile.
  rewrite (convert_after_exists zero env) by done.
  destruct (Path_mkdir_blocked env (Path output_dir)
              (record_call w (CallExists (path_str (Path input_file)))) q
              Hos Hq Hfile) as (e & He & Hkind).
  exists e. split; [|done]. erewrite bind_raise by exact He.
  unfold record_call. cbn [files dirs trace]. by rewrite <- app_assoc.
Qed.

Lemma blocked_output_directory_raises_before_decoding_witness :
  exists e,
    convert_mp3_to_wav_clips 0 demo_env
      "track.mp3" "track.mp3/clips" 10 16000 demo_world
    = (Raise e,
       {| files := files demo_world;
          dirs := dirs demo_world;
          trace := trace demo_world
                   ++ [CallExists (path_str (Path "track.mp3"));
                       CallMkdir (path_str (Path "track.mp3/clips"))] |})
    /\ ((exists x, e = FileExistsError x)
        \/ (exists x, e = NotADirectoryError x)).
Proof.
  apply (blocked_output_directory_raises_before_decoding 0 demo_env
           "track.mp3" "track.mp3/clips" 10 16000
           demo_world (Path "track.mp3")).
  - split; [done|split; [left; vm_compute; by eexists|done]].
  - done.
  - vm_compute. apply list_elem_of_here.
  - vm_compute. by eexists.
Defined.

(** ** What any run leaves behind *)

Lemma take_py_range (k : nat) n :
  Z.of_nat k <= n -> take k (py_range n) = py_range (Z.of_nat k).
Proof.
  intros Hk. rewrite !py_range_nat, <- fmap_take, take_seq.
  do 2 f_equal. lia.
Qed.

Section Outcome.
Context {sample : Type} (zero : sample) (env : @Env sample).
Implicit Types (w : @World sample) (audio_data : list sample).

Section AnyLoop.
Variables (audio_data : list sample) (spc : Z) (base : string)
  (out : PurePath) (sr : Z).

Let path (i : Z) : string := path_str (clip_path out base i).
Let store := store_clip zero audio_data spc base out sr.
Let wcall := write_call zero audio_data spc base out sr.
Let loop := write_clips zero env audio_data spc base out sr.

(** A loop that returns has stored every clip, and names the files in
    index order. *)
Lemma write_clips_ok_inv (indices : list Z) : forall created w created' w',
  loop indices created w = (Ok created', w') ->
  created' = created ++ (path <$> indices) /\
  w' = {| files := foldl store (files w) indices;
          dirs := dirs w;
          trace := trace w ++ (wcall <$> indices) |}.
Proof.
  induction indices as [|i rest IH]; intros created w created' w'.
  - intros [= <- <-]. rewrite !app_nil_r. by destruct w.
  - unfold loop. rewrite write_clips_cons. unfold mbind at 1, M_bind.
    rewrite write_clip_run.
    destruct (clip_data zero (alloc_error env) audio_data spc i)
      as [data|e] eqn:Hdata; [|done].
    apply clip_data_inv in Hdata as ->.
    destruct (encode_error env (files w) _ _ sr); [done|].
    cbn zeta. destruct (py_truediv _ sr); [|done].
    intros [-> ->]%IH. cbn [files dirs trace foldl fmap list_fmap].
    by rewrite <- !app_assoc.
Qed.

(** However the loop ends, it has stored the clips of a beginning of
    its indices and nothing else, and its calls are a beginning of the
    writes of the clips in order. *)
Lemma write_clips_any (indices : list Z) : forall created w,
  exists (k : nat) t,
    (k <= length indices)%nat /\
    files (loop indices created w).2 = foldl store (files w) (take k indices) /\
    dirs (loop indices created w).2 = dirs w /\
    trace (loop indices created w).2 = trace w ++ t /\
    t `prefix_of` (wcall <$> indices).
Proof.
  induction indices as [|i rest IH]; intros created w.
  - exists 0%nat, []. rewrite app_nil_r. by repeat split.
  - destruct (loop (i :: rest) created w) as [r w'] eqn:Hrun.
    cbn [snd]. revert Hrun.
    unfold loop. rewrite write_clips_cons. unfold mbind at 1, M_bind.
    rewrite write_clip_run.
    destruct (clip_data zero (alloc_error env) audio_data spc i)
      as [data|e] eqn:Hdata.
    2:{ intros [= <- <-]. exists 0%nat, []. rewrite app_nil_r.
        cbn [length]. repeat split; [lia|apply prefix_nil]. }
    apply clip_data_inv in Hdata as ->.
    destruct (encode_error env (files w) _ _ sr).
    { intros [= <- <-]. exists 0%nat, [wcall i]. cbn [length].
      repeat split; [lia|]. apply prefix_cons, prefix_nil. }
    cbn zeta. destruct (py_truediv _ sr).
    2:{ intros [= <- <-]. exists 1%nat, [wcall i]. cbn [length].
        repeat split; [lia|]. apply prefix_cons, prefix_nil. }
    intros Hrun.
    match type of Hrun with
    | write_clips _ _ _ _ _ _ _ rest ?c ?w1 = _ =>
        destruct (IH c w1) as (k & t & Hk & Hf & Hd & Ht & Hpre)
    end.
    unfold loop in Hf, Hd, Ht. rewrite Hrun in Hf, Hd, Ht.
    cbn [snd files dirs trace] in Hf, Hd, Ht.
    exists (S k), (wcall i :: t). cbn [length].
    split; [lia|]. rewrite Hf, Hd, Ht.
    cbn [take foldl fmap list_fmap].
    split; [done|]. split; [done|].
    split; [by rewrite <- app_assoc|]. by apply prefix_cons.
Qed.
End AnyLoop.

Lemma files_after_0 audio_data spc base out sr (fs : gmap string file) :
  files_after zero audio_data spc base out sr fs 0 = fs.
Proof. done. Qed.



(** Writing again what is on disk changes nothing. *)
Lemma files_after_absorb audio_data spc base out sr
    (fs : gmap string file) (k : nat) :
  (forall j, 0 <= j < Z.of_nat k ->
     fs !! path_str (clip_path out base j)
     = Some (Wav (padded_clip zero audio_data spc j) sr)) ->
  files_after zero audio_data spc base out sr fs (Z.of_nat k) = fs.
Proof.
  unfold files_after, py_range. induction k as [|k IH]; intros Hfs; [done|].
  rewrite seqZ_S, foldl_app. cbn [foldl]. rewrite Z.add_0_l.
  rewrite IH by (intros j Hj; apply Hfs; lia).
  unfold store_clip. apply insert_id, Hfs. lia.
Qed.

Lemma valid_input_dec input_file w :
  valid_input env input_file w \/ ~ valid_input env input_file w.
Proof.
  unfold valid_input.
  destruct (stat_error env (path_str (Path input_file))) as [e|];
    [right; by intros [? _]|].
  destruct (present w (path_str (Path input_file))) eqn:Hex.
  - apply present_true_inv in Hex.
    destruct (decide (lower (suffix (Path input_file)) = ".mp3"));
      [by left|right; by intros (_ & _ & ?)].
  - right. intros (_ & Hp & _). apply present_true in Hp. congruence.
Qed.

(** The state a run ends in, whatever the file system, the operating
    system, the decoder and the encoder do: the clips before some index
    [k] are stored and nothing else has changed among the files, no
    directory is gone, and the calls made are a beginning of [exists],
    [mkdir], [load] and the writes of the clips in index order. *)
Lemma convert_outcome input_file output_dir clip_duration sample_rate w :
  let audio_data :=
    match decode env (files w) input_file sample_rate with
    | Ok a => a
    | Raise _ => []
    end in
  let spc := samples_per_clip clip_duration sample_rate in
  let n := match num_clips (total_samples audio_data) spc with
           | Ok n => n
           | Raise _ => 0
           end in
  let w' := (convert_mp3_to_wav_clips zero env input_file
               output_dir clip_duration sample_rate w).2 in
  exists (k : nat) t,
    Z.of_nat k <= Z.max n 0 /\
    files w' = files_after zero audio_data spc (stem (Path input_file))
                 (Path output_dir) sample_rate (files w) (Z.of_nat k) /\
    dirs w ⊆ dirs w' /\
    trace w' = trace w ++ t /\
    t `prefix_of`
      [CallExists (path_str (Path input_file));
       CallMkdir (path_str (Path output_dir));
       CallLoad input_file sample_rate]
      ++ (write_call zero audio_data spc (stem (Path input_file))
            (Path output_dir) sample_rate <$> py_range n).
Proof.
  intros audio_data spc n w'.
  set (E := CallExists (path_str (Path input_file))).
  set (Mk := CallMkdir (path_str (Path output_dir))).
  set (Ld := CallLoad input_file sample_rate).
  destruct (valid_input_dec input_file w) as [Hv|Hnv].
  2:{ assert (Hw' : w' = record_call w E)
        by (by apply convert_rejected).
      exists 0%nat, [E]. rewrite Hw'. split; [lia|].
      split; [done|]. split; [done|]. split; [done|]. by eexists. }
  subst w'.
  destruct (Path_mkdir_cases env (Path output_dir) (record_call w E))
    as [Hfree|[e He]].
  2:{ rewrite (convert_after_exists zero env) by done.
      erewrite bind_raise by exact He.
      exists 0%nat, [E; Mk]. split; [lia|]. split; [done|]. split; [done|].
      split; [cbn; by rewrite <- app_assoc|]. by eexists. }
  destruct (decode env (files w) input_file sample_rate) as [a|e] eqn:Hdec.
  2:{ rewrite (convert_after_exists zero env) by done.
      erewrite bind_ok by (apply Path_mkdir_ok; apply Hfree).
      erewrite bind_raise by (by apply librosa_load_raise).
      exists 0%nat, [E; Mk; Ld]. split; [lia|]. split; [done|].
      split; [cbn; apply union_subseteq_l|].
      split; [cbn; by rewrite <- !app_assoc|]. by eexists. }
  rewrite (convert_after_load zero env _ _ _ _ _ a Hv Hfree Hdec).
  subst audio_data. fold spc.
  set (w3 := loaded input_file output_dir sample_rate w).
  assert (Hw3f : files w3 = files w) by done.
  assert (Hw3d : dirs w ⊆ dirs w3) by (cbn; apply union_subseteq_l).
  assert (Hw3t : trace w3 = trace w ++ [E; Mk; Ld]) by done.
  destruct (plan_clips a clip_duration sample_rate sample_rate)
    as [l|e] eqn:Hplan.
  2:{ erewrite bind_raise by reflexivity.
      exists 0%nat, [E; Mk; Ld]. split; [lia|]. split; [done|].
      split; [done|]. split; [done|]. by eexists. }
  apply plan_clips_inv in Hplan as (n' & Hn & _ & ->). fold spc in Hn.
  subst n. rewrite Hn. erewrite bind_ok by reflexivity.
  destruct (write_clips_any a spc (stem (Path input_file))
              (Path output_dir) sample_rate (py_range n') [] w3)
    as (k & t & Hk & Hf & Hd & Ht & Hpre).
  unfold py_range in Hk. rewrite length_seqZ in Hk.
  exists k, ([E; Mk; Ld] ++ t).
  split; [lia|]. rewrite Hf, Hd, Ht, Hw3f, Hw3t.
  split; [|split; [done|split; [by rewrite <- app_assoc|]]].
  - unfold files_after. destruct (Z.le_gt_cases n' 0).
    + assert (k = 0%nat) as -> by lia. by rewrite take_0.
    + by rewrite take_py_range by lia.
  - by apply prefix_app.
Qed.
End Outcome.

(** X8: the list a run returns and the disk agree.  When the run
    returns, the list has one path per clip counted at line 67, no path
    occurs twice, and at every path of the list the disk holds a WAV
    file at the sample rate with exactly [samples_per_clip] samples. *)
Theorem returned_paths_are_the_files_written {sample} (zero : sample)
    (env : Env) (input_file output_dir : string)
    (clip_duration sample_rate : Z) (w w' : @World sample) created :
  convert_mp3_to_wav_clips zero env input_file output_dir
    clip_duration sample_rate w = (Ok created, w') ->
  exists audio_data n,
    decode env (files w) input_file sample_rate = Ok audio_data /\
    num_clips (total_samples audio_data)
      (samples_per_clip clip_duration sample_rate) = Ok n /\
    length created = Z.to_nat n /\
    NoDup created /\
    Forall (fun p => exists data,
              files w' !! p = Some (Wav data sample_rate) /\
              Z.of_nat (length data)
              = samples_per_clip clip_duration sample_rate) created.
Proof.
  intros Hrun.
  apply convert_ok_inv
    in Hrun as (audio_data & n & _ & _ & Hdec & Hn & _ & Hloop).
  apply write_clips_ok_inv in Hloop as [-> ->]. cbn [app].
  set (spc := samples_per_clip clip_duration sample_rate) in *.
  assert (Hbase : contains "/" (stem (Path input_file)) = false)
    by apply stem_no_slash.
  exists audio_data, n. split; [done|]. split; [done|].
  split; [by rewrite length_fmap; unfold py_range; rewrite length_seqZ|].
  split.
  - apply NoDup_fmap_2_strong; [|apply NoDup_seqZ].
    intros i j Hi%elem_of_seqZ Hj%elem_of_seqZ Heq.
    apply (clip_path_inj (Path output_dir) (stem (Path input_file)));
      (done || lia).
  - apply Forall_fmap, Forall_forall. intros j Hj%elem_of_seqZ. cbn.
    exists (padded_clip zero audio_data spc j). cbn [files loaded]. split.
    + replace n with (Z.of_nat (Z.to_nat n)) by lia.
      fold (files_after zero audio_data spc (stem (Path input_file))
              (Path output_dir) sample_rate (files w)
              (Z.of_nat (Z.to_nat n))).
      rewrite files_after_lookup by (done || lia).
      by rewrite decide_True by lia.
    + apply padded_clip_length; [|lia].
      destruct (Z.lt_trichotomy spc 0) as [Hneg|[H0|Hpos]]; [| |done].
      * assert (n <= 0); [|lia].
        apply (num_clips_sign (total_samples audio_data) spc);
          [unfold total_samples; lia|done|done].
      * rewrite H0 in Hn. unfold num_clips, py_truediv in Hn. done.
Qed.

Lemma returned_paths_are_the_files_written_witness :
  let run := convert_mp3_to_wav_clips 0 demo_env "track.mp3" "out" 1 2
               demo_world in
  exists audio_data n,
    decode demo_env (files demo_world) "track.mp3" 2 = Ok audio_data /\
    num_clips (total_samples audio_data) (samples_per_clip 1 2) = Ok n /\
    length ["out/track_clip_001.wav"; "out/track_clip_002.wav";
            "out/track_clip_003.wav"] = Z.to_nat n /\
    NoDup ["out/track_clip_001.wav"; "out/track_clip_002.wav";
           "out/track_clip_003.wav"] /\
    Forall (fun p => exists data,
              files run.2 !! p = Some (Wav data 2) /\
              Z.of_nat (length data) = samples_per_clip 1 2)
      ["out/track_clip_001.wav"; "out/track_clip_002.wav";
       "out/track_clip_003.wav"].
Proof.
  intros run.
  apply (returned_paths_are_the_files_written 0 demo_env
           "track.mp3" "out" 1 2 demo_world run.2).
  by vm_compute.
Defined.

(** X9: a second run over the result of the first changes nothing.
    When a run returns, and the same call on the file system it left
    returns too and has decoded the same buffer, the second run returns
    the same list and leaves the same files and directories. *)
Theorem second_run_changes_nothing {sample} (zero : sample)
    (env : Env) (input_file output_dir : string)
    (clip_duration sample_rate : Z) (w w1 w2 : @World sample)
    created1 created2 :
  convert_mp3_to_wav_clips zero env input_file output_dir
    clip_duration sample_rate w = (Ok created1, w1) ->
  convert_mp3_to_wav_clips zero env input_file output_dir
    clip_duration sample_rate w1 = (Ok created2, w2) ->
  decode env (files w1) input_file sample_rate
  = decode env (files w) input_file sample_rate ->
  created2 = created1 /\ files w2 = files w1 /\ dirs w2 = dirs w1.
Proof.
  intros Hrun1 Hrun2 Hsame.
  apply convert_ok_inv
    in Hrun1 as (a1 & n1 & _ & _ & Hdec1 & Hn1 & _ & Hloop1).
  apply convert_ok_inv
    in Hrun2 as (a2 & n2 & _ & _ & Hdec2 & Hn2 & _ & Hloop2).
  rewrite Hsame, Hdec1 in Hdec2. injection Hdec2 as <-.
  rewrite Hn1 in Hn2. injection Hn2 as <-.
  apply write_clips_ok_inv in Hloop1 as [-> Hw1].
  apply write_clips_ok_inv in Hloop2 as [-> Hw2].
  split; [done|].
  assert (Hbase : contains "/" (stem (Path input_file)) = false)
    by apply stem_no_slash.
  rewrite Hw2. cbn [files dirs loaded]. split.
  - destruct (Z.le_gt_cases n1 0) as [Hn0|Hn0].
    { unfold py_range. by rewrite seqZ_nil by done. }
    replace n1 with (Z.of_nat (Z.to_nat n1)) at 1 by lia.
    apply (files_after_absorb zero). intros j Hj.
    rewrite Hw1. cbn [files loaded].
    replace n1 with (Z.of_nat (Z.to_nat n1)) by lia.
    fold (files_after zero a1
            (samples_per_clip clip_duration sample_rate)
            (stem (Path input_file)) (Path output_dir) sample_rate
            (files w) (Z.of_nat (Z.to_nat n1))).
    rewrite files_after_lookup by (done || lia).
    by rewrite decide_True by lia.
  - rewrite Hw1. cbn [dirs loaded].
    by rewrite <- union_assoc_L, union_idemp_L.
Qed.

Lemma second_run_changes_nothing_witness :
  let run1 := convert_mp3_to_wav_clips 0 demo_env "track.mp3" "out" 1 2
                demo_world in
  let run2 := convert_mp3_to_wav_clips 0 demo_env "track.mp3" "out" 1 2
                run1.2 in
  ["out/track_clip_001.wav"; "out/track_clip_002.wav";
   "out/track_clip_003.wav"]
  = ["out/track_clip_001.wav"; "out/track_clip_002.wav";
     "out/track_clip_003.wav"]
  /\ files run2.2 = files run1.2 /\ dirs run2.2 = dirs run1.2.
Proof.
  intros run1 run2.
  apply (second_run_changes_nothing 0 demo_env
           "track.mp3" "out" 1 2 demo_world run1.2 run2.2); by vm_compute.
Defined.


(** X11: the calls that leave the program come in one order, in every
    run: [exists] on the input, then [mkdir] on the output directory,
    then the decoder, then the encoder for clip 0, clip 1 and so on.  A
    run makes a beginning of this sequence and nothing else; no call is
    repeated or made out of turn. *)
Theorem calls_are_a_beginning_of_the_pipeline {sample} (zero : sample)
    (env : Env) (input_file output_dir : string)
    (clip_duration sample_rate : Z) (w : @World sample) :
  let audio_data :=
    match decode env (files w) input_file sample_rate with
    | Ok a => a
    | Raise _ => []
    end in
  let spc := samples_per_clip clip_duration sample_rate in
  let n := match num_clips (total_samples audio_data) spc with
           | Ok n => n
           | Raise _ => 0
           end in
  let w' := (convert_mp3_to_wav_clips zero env input_file
               output_dir clip_duration sample_rate w).2 in
  new_calls w w' `prefix_of`
    [CallExists (path_str (Path input_file));
     CallMkdir (path_str (Path output_dir));
     CallLoad input_file sample_rate]
    ++ ((fun i =>
           CallWrite
             (path_str (clip_path (Path output_dir)
                          (stem (Path input_file)) i))
             (padded_clip zero audio_data spc i) sample_rate)
        <$> py_range n).
Proof.
  intros audio_data spc n w'.
  destruct (convert_outcome zero env input_file output_dir
              clip_duration sample_rate w) as (k & t & _ & _ & _ & Ht & Hpre).
  fold w' in Ht. unfold new_calls. rewrite Ht, drop_app_length.
  exact Hpre.
Qed.

(** X12: when the operating system refuses to examine the input path
    (a name too long, a directory on the way that may not be searched),
    the run raises what [os.stat] raised having only asked whether the
    path exists: nothing is created and the decoder is not called. *)
Theorem stat_refusal_raises_before_any_effect {sample} (zero : sample)
    (env : Env) (input_file output_dir : string)
    (clip_duration sample_rate : Z) (w : @World sample) e :
  stat_error env (path_str (Path input_file)) = Some e ->
  convert_mp3_to_wav_clips zero env input_file output_dir
    clip_duration sample_rate w
  = (Raise e,
     {| files := files w;
        dirs := dirs w;
        trace := trace w ++ [CallExists (path_str (Path input_file))] |}).
Proof.
  intros Hstat. unfold convert_mp3_to_wav_clips.
  by erewrite bind_raise by (by apply Path_exists_raise).
Qed.

Lemma stat_refusal_raises_before_any_effect_witness :
  convert_mp3_to_wav_clips 0 demo_env_name_max
    (string_replicate 256 "b" +:+ ".mp3") "out" 10 16000 demo_world
  = (Raise (OSError "[Errno 36] File name too long"),
     {| files := files demo_world;
        dirs := dirs demo_world;
        trace := trace demo_world
                 ++ [CallExists (path_str (Path (string_replicate 256 "b"
                                                 +:+ ".mp3")))] |}).
Proof.
  apply (stat_refusal_raises_before_any_effect 0 demo_env_name_max
           (string_replicate 256 "b" +:+ ".mp3") "out" 10 16000 demo_world).
  by vm_compute.
Defined.



